(** * Notification history provider (internal/providers/notifications/setup.go)

    A shallow embedding of the history store, its persistence, the D-Bus
    entry points, the activation handler and the query facade, followed by
    the properties of the specification that were checked against it.

    Conventions of the embedding:
    - [uint32] and [int32] values are integers of [Z]; every place where the
      Go code can wrap around is written with [wrap32] / [wrap32s].
    - [time.Time] is an instant of [Z]; [Before] and [Compare] are the
      order of [Z].
    - the package-level variables [history], [nextID], [conn] and the cache
      file form the record [World]; effects that leave the process (log
      lines, spawned goroutines, channel sends, bus signals, the clipboard
      command) are appended to its [trace].
    - what the environment decides during one call (clock readings, the
      order in which [range] walks a map, which Go leaves unspecified, and
      the success of the I/O steps) is the record [Oracle] that every
      operation receives.
    - the mutex [mu] serialises the operations; the embedding is the
      sequential semantics of one operation at a time. *)

From Stdlib Require Import ZArith Lia Ascii String Sorting.Sorted Permutation.
From stdpp Require Import gmap strings list fin_maps sorting.

Local Open Scope string_scope.
Local Open Scope Z_scope.

(** ** Machine integers *)

Definition wrap32 (z : Z) : Z := z mod 2 ^ 32.

Definition wrap32s (z : Z) : Z := (z + 2 ^ 31) mod 2 ^ 32 - 2 ^ 31.

Definition wrap64 (z : Z) : Z := z mod 2 ^ 64.

(** ** Dynamic values

    Values of Go's [interface{}] as they arrive from the bus.  A
    [map[string]dbus.Variant] is kept as the map of its variants. *)

#[warnings="-register-all"]
Inductive Dyn : Type :=
| DString (s : string)
| DBool (b : bool)
| DByte (z : Z)
| DInt16 (z : Z)
| DUint16 (z : Z)
| DInt32 (z : Z)
| DUint32 (z : Z)
| DInt64 (z : Z)
| DUint64 (z : Z)
| DDouble (bits : Z)
| DStrings (l : list string)
| DSlice (l : list Dyn)
| DVariantMap (m : gmap string Variant)
with Variant : Type :=
| MakeVariant (value : Dyn).

Definition Variant_Value (v : Variant) : Dyn :=
  match v with MakeVariant d => d end.

(** ** Data model *)

Record Config := {
  Icon : string;
  MinScore : Z;
  MaxItems : Z;
  Persist : bool
}.

Record Notification := {
  ID : Z;
  AppName : string;
  AppIcon : string;
  Summary : string;
  Body : string;
  Actions : list string;
  ExpireTimeout : Z;
  Time : Z;
  Hints : gmap string Dyn
}.

Abbreviation History := (gmap Z Notification).

(** The cache file holds a gob stream.  [encoding/gob] is a library of the
    Go distribution: a stream is represented by the map it decodes to, and
    [Garbage] stands for any content the decoder rejects. *)

Inductive Blob : Type :=
| GobStream (m : History)
| Garbage.

Definition gob_decode (b : Blob) : option History :=
  match b with
  | GobStream m => Some m
  | Garbage => None
  end.

(** Effects that leave the process. *)

Inductive Event : Type :=
| EvLogError (what : string)
| EvGoSaveToFile
| EvProviderUpdated (msg : string)
| EvEmit (signal : string) (id reason : Z)
| EvClipboard (content : string).

Record World := {
  history : History;
  nextID : Z;
  file : option Blob;
  conn : bool;
  trace : list Event
}.

Definition with_history (h : History) (w : World) : World :=
  {| history := h; nextID := nextID w; file := file w; conn := conn w;
     trace := trace w |}.

Definition with_nextID (n : Z) (w : World) : World :=
  {| history := history w; nextID := n; file := file w; conn := conn w;
     trace := trace w |}.

Definition with_file (f : option Blob) (w : World) : World :=
  {| history := history w; nextID := nextID w; file := f; conn := conn w;
     trace := trace w |}.

Definition emit (e : Event) (w : World) : World :=
  {| history := history w; nextID := nextID w; file := file w; conn := conn w;
     trace := trace w ++ [e] |}.

(** The state of the package variables when the process starts, with
    whatever the cache file holds. *)

Definition init (f : option Blob) : World :=
  {| history := ∅; nextID := 1; file := f; conn := false; trace := [] |}.

(** What the environment answers during one call. *)

Record Oracle := {
  now : Z;                   (* time.Now() in storeNotification *)
  trim_now : Z;              (* time.Now() in trimHistory *)
  range : History -> list (Z * Notification);  (* order of a range loop *)
  read_ok : bool;            (* os.ReadFile *)
  encode_ok : bool;          (* encoder.Encode *)
  mkdir_ok : bool;           (* os.MkdirAll *)
  write_ok : bool;           (* os.WriteFile *)
  clip_ok : bool             (* cmd.Run of wl-copy *)
}.

(** A [range] loop visits every entry of the map once, in some order. *)

Definition range_ok (o : Oracle) : Prop :=
  forall h : History, range o h ≡ₚ map_to_list h.

Definition Name : string := "notifications".
Definition dbusInterface : string := "org.freedesktop.Notifications".
Definition dbusPath : string := "/org/freedesktop/Notifications".

(** ** Persistence

    saveToFile stops at the first step that fails; a failed write is taken
    to leave the file as it was.  loadFromFile decodes into the existing
    map, so decoded entries are added to it and replace entries with the
    same key; a failed decode is taken to leave the map as it was, and the
    loop over the keys runs in either case.  The decoder of the Go library
    can leave in the map the entries it read before the error; that
    residue is not represented, and the statements below that load a file
    load one that decodes or stop before the decode. *)

Definition saveToFile (o : Oracle) (w : World) : World :=
  if negb (encode_ok o) then emit (EvLogError "encode") w
  else if negb (mkdir_ok o) then emit (EvLogError "createdirs") w
  else if negb (write_ok o) then emit (EvLogError "writefile") w
  else with_file (Some (GobStream (history w))) w.

(** The loop of loadFromFile over the keys, in the order of the range. *)

Definition bump_nextID (next id : Z) : Z :=
  if next <=? id then wrap32 (id + 1) else next.

Definition loadFromFile (o : Oracle) (w : World) : World :=
  match file w with
  | None => w
  | Some blob =>
    if negb (read_ok o) then emit (EvLogError "load") w
    else
      let w1 :=
        match gob_decode blob with
        | Some m => with_history (m ∪ history w) w
        | None => emit (EvLogError "decoding") w
        end in
      with_nextID
        (fold_left bump_nextID (fst <$> range o (history w1)) (nextID w1)) w1
  end.

Definition Setup (cfg : Config) (o : Oracle) (w : World) : World :=
  if Persist cfg then loadFromFile o w else w.

(** ** History store *)

(** The scan of trimHistory: [oldestID] starts at zero and [oldestTime] at
    the current time; an entry strictly before [oldestTime] replaces both. *)

Definition trim_step (acc : Z * Z) (e : Z * Notification) : Z * Z :=
  if Time (snd e) <? snd acc then (fst e, Time (snd e)) else acc.

Definition trim_scan (t : Z) (es : list (Z * Notification)) : Z * Z :=
  fold_left trim_step es (0, t).

Definition trimHistory (o : Oracle) (w : World) : World :=
  let oldestID := fst (trim_scan (trim_now o) (range o (history w))) in
  if 0 <? oldestID then with_history (delete oldestID (history w)) w else w.

Record NotifyArgs := {
  appName : string;
  replacesID : Z;
  appIcon : string;
  summary : string;
  body : string;
  actions : list string;
  hints : gmap string Dyn;
  expireTimeout : Z
}.

Definition new_notification (id : Z) (a : NotifyArgs) (t : Z) : Notification :=
  {| ID := id; AppName := appName a; AppIcon := appIcon a;
     Summary := summary a; Body := body a; Actions := actions a;
     ExpireTimeout := expireTimeout a; Time := t; Hints := hints a |}.

(** The two steps of storeNotification that touch the store: choosing the
    ID and assigning [history[id]]. *)

Definition assign_id (a : NotifyArgs) (w : World) : Z * World :=
  if 0 <? replacesID a then (replacesID a, w)
  else (nextID w, with_nextID (wrap32 (nextID w + 1)) w).

Definition put (id : Z) (a : NotifyArgs) (t : Z) (w : World) : World :=
  with_history (<[id := new_notification id a t]> (history w)) w.

Definition over_limit (cfg : Config) (w : World) : bool :=
  MaxItems cfg <? Z.of_nat (size (history w)).

Definition storeNotification (cfg : Config) (o : Oracle) (a : NotifyArgs)
    (w : World) : Z * World :=
  let '(id, w1) := assign_id a w in
  let w2 := put id a (now o) w1 in
  let w3 := if over_limit cfg w2 then trimHistory o w2 else w2 in
  let w4 := if Persist cfg then emit EvGoSaveToFile w3 else w3 in
  (id, emit (EvProviderUpdated "notifications:new") w4).

(** ** Bus service *)

(** Notify of notificationServer: the variants are unwrapped and the call is
    handed to the store. *)

Record NotifyCall := {
  nc_appName : string;
  nc_replacesID : Z;
  nc_appIcon : string;
  nc_summary : string;
  nc_body : string;
  nc_actions : list string;
  nc_hints : gmap string Variant;
  nc_expireTimeout : Z
}.

Definition unwrap_hints (hs : gmap string Variant) : gmap string Dyn :=
  Variant_Value <$> hs.

Definition Notify (cfg : Config) (o : Oracle) (c : NotifyCall) (w : World)
    : Z * World :=
  storeNotification cfg o
    {| appName := nc_appName c; replacesID := nc_replacesID c;
       appIcon := nc_appIcon c; summary := nc_summary c; body := nc_body c;
       actions := nc_actions c; hints := unwrap_hints (nc_hints c);
       expireTimeout := nc_expireTimeout c |} w.

Definition CloseNotification (cfg : Config) (o : Oracle) (id : Z) (w : World)
    : World :=
  let w1 := with_history (delete id (history w)) w in
  let w2 := if Persist cfg then saveToFile o w1 else w1 in
  if conn w2
  then emit (EvEmit (dbusInterface ++ ".NotificationClosed") id 3) w2
  else w2.

(** Type assertions of the form [v, _ := x.(T)]: the zero value of [T]
    when [x] holds another type. *)

Definition assert_string (d : Dyn) : string :=
  match d with DString s => s | _ => "" end.

Definition assert_uint32 (d : Dyn) : Z :=
  match d with DUint32 z => z | _ => 0 end.

Definition assert_int32 (d : Dyn) : Z :=
  match d with DInt32 z => z | _ => 0 end.

Definition assert_strings (d : Dyn) : list string :=
  match d with DStrings l => l | _ => [] end.

Definition assert_variant_map (d : Dyn) : gmap string Variant :=
  match d with DVariantMap m => m | _ => ∅ end.

(** handleNotifySignal indexes [body[0]] to [body[7]]; [None] is the
    run-time panic of an index out of range.  The eight assertions come
    first, then the call of the store. *)

Definition decode_signal (sbody : list Dyn) : option NotifyArgs :=
  b0 ← sbody !! 0%nat; b1 ← sbody !! 1%nat; b2 ← sbody !! 2%nat;
  b3 ← sbody !! 3%nat; b4 ← sbody !! 4%nat; b5 ← sbody !! 5%nat;
  b6 ← sbody !! 6%nat; b7 ← sbody !! 7%nat;
  Some {| appName := assert_string b0; replacesID := assert_uint32 b1;
          appIcon := assert_string b2; summary := assert_string b3;
          body := assert_string b4; actions := assert_strings b5;
          hints := unwrap_hints (assert_variant_map b6);
          expireTimeout := assert_int32 b7 |}.

Definition handleNotifySignal (cfg : Config) (o : Oracle) (sbody : list Dyn)
    (w : World) : option World :=
  a ← decode_signal sbody;
  Some (snd (storeNotification cfg o a w)).

Record Signal := {
  sig_name : string;
  sig_body : list Dyn
}.

(** One turn of the loop of listenForSignals, which runs when the request
    for the service name is not answered with primary ownership. *)

Definition listen_step (cfg : Config) (o : Oracle) (s : Signal) (w : World)
    : option World :=
  if String.eqb (sig_name s) (dbusInterface ++ ".Notify")
     && (8 <=? Z.of_nat (length (sig_body s)))
  then handleNotifySignal cfg o (sig_body s) w
  else Some w.

(** ** strconv *)

Inductive NumError : Type := ErrSyntax | ErrRange.

(** A byte that is no decimal digit is a syntax error in base 10 (a letter
    yields a digit value of at least ten, anything else has none). *)

Definition digit_of (c : ascii) : option Z :=
  let k := Z.of_N (Ascii.N_of_ascii c) in
  if (48 <=? k) && (k <=? 57) then Some (k - 48) else None.

Definition cutoff : Z := (2 ^ 64 - 1) / 10 + 1.

Fixpoint parse_loop (maxVal : Z) (s : string) (n : Z) : Z * option NumError :=
  match s with
  | EmptyString => (n, None)
  | String c s' =>
    match digit_of c with
    | None => (0, Some ErrSyntax)
    | Some d =>
      if cutoff <=? n then (maxVal, Some ErrRange)
      else
        let n10 := wrap64 (n * 10) in
        let n1 := wrap64 (n10 + d) in
        if (n1 <? n10) || (maxVal <? n1) then (maxVal, Some ErrRange)
        else parse_loop maxVal s' n1
    end
  end.

(** [strconv.ParseUint(s, 10, bitSize)] *)

Definition ParseUint (s : string) (bitSize : Z) : Z * option NumError :=
  if String.eqb s "" then (0, Some ErrSyntax)
  else parse_loop (2 ^ bitSize - 1) s 0.

Definition digit_char (d : Z) : ascii :=
  Ascii.ascii_of_N (Z.to_N (48 + d)).

Fixpoint formatBits (fuel : nat) (u : Z) (acc : string) : string :=
  match fuel with
  | O => acc
  | S fuel' =>
    if u <? 10 then String (digit_char u) acc
    else formatBits fuel' (u / 10) (String (digit_char (u mod 10)) acc)
  end.

(** [strconv.FormatUint(u, 10)]; a 64-bit value has at most 20 digits. *)

Definition FormatUint (u : Z) : string := formatBits 20 u "".

(** ** Activation handler *)

Definition ActionDismiss : string := "dismiss".
Definition ActionDismissAll : string := "dismiss_all".
Definition ActionCopy : string := "copy".
Definition ActionCopyBody : string := "copy_body".

Definition nl : string := String (Ascii.ascii_of_nat 10) "".

Definition copyToClipboard (o : Oracle) (content : string) (w : World) : World :=
  let w1 := emit (EvClipboard content) w in
  if clip_ok o then w1 else emit (EvLogError "copy to clipboard") w1.

(** Activate; the parameters [single], [query], [args], [format] and [conn]
    of the Go function are not used by its body. *)

Definition Activate (cfg : Config) (o : Oracle) (identifier action : string)
    (w : World) : World :=
  let action := if String.eqb action "" then ActionDismiss else action in
  if String.eqb action ActionDismiss then
    match ParseUint identifier 32 with
    | (_, Some _) => emit (EvLogError "parse id") w
    | (id, None) =>
      let w1 := with_history (delete (wrap32 id) (history w)) w in
      if Persist cfg then saveToFile o w1 else w1
    end
  else if String.eqb action ActionDismissAll then
    let w1 := with_history ∅ w in
    if Persist cfg then saveToFile o w1 else w1
  else if String.eqb action ActionCopy || String.eqb action ActionCopyBody then
    match ParseUint identifier 32 with
    | (_, Some _) => emit (EvLogError "parse id") w
    | (id, None) =>
      match history w !! wrap32 id with
      | None => w
      | Some n =>
        let content :=
          if String.eqb action ActionCopyBody then Body n
          else Summary n ++ nl ++ Body n in
        copyToClipboard o content w
      end
    end
  else emit (EvLogError "activate") w.

(** ** Query facade *)

Record FuzzyInfo := {
  Field : string;
  Positions : list Z;
  Start : Z
}.

Record Item := {
  Identifier : string;
  Text : string;
  Subtext : string;
  ItemIcon : string;
  ItemType : Z;
  Provider : string;
  ItemActions : list string;
  Preview : string;
  PreviewType : string;
  Score : Z;
  Fuzzyinfo : FuzzyInfo
}.

(** Collaborators of the package that live outside of it: the fuzzy
    scorer of pkg/common, the item type constant of pkg/pb, the preview
    type constant of internal/util and the RFC1123 layout of
    [time.Format]. *)

Record Externals := {
  FuzzyScore : string -> string -> bool -> Z * list Z * Z;
  QueryResponse_REGULAR : Z;
  PreviewTypeText : string;
  format_RFC1123 : Z -> string
}.

Definition with_score (sc : Z) (e : Item) : Item :=
  {| Identifier := Identifier e; Text := Text e; Subtext := Subtext e;
     ItemIcon := ItemIcon e; ItemType := ItemType e; Provider := Provider e;
     ItemActions := ItemActions e; Preview := Preview e;
     PreviewType := PreviewType e; Score := sc; Fuzzyinfo := Fuzzyinfo e |}.

Definition with_fuzzy (sc : Z) (pos : list Z) (st : Z) (e : Item) : Item :=
  {| Identifier := Identifier e; Text := Text e; Subtext := Subtext e;
     ItemIcon := ItemIcon e; ItemType := ItemType e; Provider := Provider e;
     ItemActions := ItemActions e; Preview := Preview e;
     PreviewType := PreviewType e; Score := sc;
     Fuzzyinfo := {| Field := Field (Fuzzyinfo e); Positions := pos;
                     Start := st |} |}.

(** The item built for one notification at the top of the loop body. *)

Definition build_item (x : Externals) (cfg : Config) (n : Notification) : Item :=
  {| Identifier := FormatUint (ID n);
     Text := Summary n;
     Subtext := if String.eqb (AppName n) "" then Body n
                else "[" ++ AppName n ++ "] " ++ Body n;
     ItemIcon := if String.eqb (AppIcon n) "" then Icon cfg else AppIcon n;
     ItemType := QueryResponse_REGULAR x;
     Provider := Name;
     ItemActions := [ActionDismiss; ActionCopy; ActionCopyBody];
     Preview := Summary n ++ nl ++ nl ++ Body n ++ nl ++ nl ++ "App: "
                ++ AppName n ++ nl ++ "Time: " ++ format_RFC1123 x (Time n);
     PreviewType := PreviewTypeText x;
     Score := 0;
     Fuzzyinfo := {| Field := "text"; Positions := []; Start := 0 |} |}.

(** The rest of the loop body: what is appended to [entries], if anything. *)

Definition query_entry (x : Externals) (cfg : Config) (query : string)
    (exact : bool) (n : Notification) : option Item :=
  let e := build_item x cfg n in
  if String.eqb query "" then Some e
  else
    let searchText := Summary n ++ " " ++ Body n ++ " " ++ AppName n in
    let '(score, pos, start) := FuzzyScore x query searchText exact in
    let e' := with_fuzzy score pos start e in
    if MinScore cfg <? Score e' then Some e' else None.

Definition Time_Compare (t u : Z) : Z :=
  match t ?= u with
  | Lt => -1
  | Eq => 0
  | Gt => 1
  end.

(** The comparison function handed to SortStableFunc. *)

Definition by_time (h : History) (a b : Item) : Z :=
  let idA := fst (ParseUint (Identifier a) 32) in
  let idB := fst (ParseUint (Identifier b) 32) in
  match h !! wrap32 idA, h !! wrap32 idB with
  | Some nA, Some nB => Time_Compare (Time nB) (Time nA)
  | _, _ => 0
  end.

(** [slices.SortStableFunc]: a stable sort, here by insertion.  An element
    moves in front of another only when [cmp] puts it strictly before. *)

Fixpoint insert_stable {A : Type} (cmp : A -> A -> Z) (x : A) (l : list A)
    : list A :=
  match l with
  | [] => [x]
  | y :: l' => if cmp y x <? 0 then y :: insert_stable cmp x l' else x :: l
  end.

Definition SortStableFunc {A : Type} (cmp : A -> A -> Z) (l : list A) : list A :=
  foldr (insert_stable cmp) [] l.

Definition rank_scores (entries : list Item) : list Item :=
  imap (fun k e => with_score (wrap32s (10000 - Z.of_nat k)) e) entries.

Definition Query (x : Externals) (cfg : Config) (o : Oracle) (query : string)
    (exact : bool) (w : World) : list Item :=
  let entries :=
    omap (query_entry x cfg query exact) (snd <$> range o (history w)) in
  if String.eqb query ""
  then rank_scores (SortStableFunc (by_time (history w)) entries)
  else entries.

(** ** Runs of the store *)

(** The worlds reached after each call of a sequence of inserts. *)

Fixpoint insert_run (cfg : Config) (calls : list (Oracle * NotifyArgs))
    (w : World) : list World :=
  match calls with
  | [] => []
  | (o, a) :: rest =>
    let w' := snd (storeNotification cfg o a w) in
    w' :: insert_run cfg rest w'
  end.

(** ** Invariants and assumptions *)

Definition uint32 (z : Z) : Prop := 0 <= z < 2 ^ 32.

(** Typing of the package variables: keys and counter are [uint32]. *)

Definition typed (w : World) : Prop :=
  uint32 (nextID w) /\ forall k n, history w !! k = Some n -> uint32 k.

(** Every record sits under its own ID, a 32-bit value. *)

Definition keys_match (h : History) : Prop :=
  forall k n, h !! k = Some n -> ID n = k /\ 0 <= k < 2 ^ 32.

(** The invariant of the data model: every record sits under its own ID
    and no record has ID 0. *)

Definition store_inv (h : History) : Prop :=
  forall k n, h !! k = Some n -> ID n = k /\ ID n <> 0.

Definition no_zero_key (h : History) : Prop := h !! 0 = None.

(** The environment behaves when a range loop walks the whole map and the
    clock has advanced between the timestamp of an insert and the scan of
    its eviction. *)

Definition clock_ok (o : Oracle) : Prop := now o < trim_now o.

Definition env_ok (o : Oracle) : Prop := range_ok o /\ clock_ok o.

(** The ID chosen by storeNotification and the map right after the
    assignment [history[id] = notification]. *)

Definition chosen_id (a : NotifyArgs) (w : World) : Z := fst (assign_id a w).

Definition after_put (o : Oracle) (a : NotifyArgs) (w : World) : History :=
  <[chosen_id a w := new_notification (chosen_id a w) a (now o)]> (history w).

(** The number written by a string of decimal digits after the digits
    already read amount to [n]; used to relate ParseUint and FormatUint. *)

Fixpoint digits_value (s : string) (n : Z) : option Z :=
  match s with
  | EmptyString => Some n
  | String c s' =>
    match digit_of c with
    | Some d => digits_value s' (n * 10 + d)
    | None => None
    end
  end.

(** ** Concrete inputs used to exercise the statements *)

Definition sample_cfg (m : Z) : Config :=
  {| Icon := "preferences-system-notifications"; MinScore := 30;
     MaxItems := m; Persist := true |}.

Definition sample_oracle (t : Z) : Oracle :=
  {| now := t; trim_now := t + 1; range := map_to_list; read_ok := true;
     encode_ok := true; mkdir_ok := true; write_ok := true; clip_ok := true |}.

Definition sample_args (r : Z) (s : string) : NotifyArgs :=
  {| appName := "mail"; replacesID := r; appIcon := ""; summary := s;
     body := "text of " ++ s; actions := ["default"];
     hints := {[ "urgency" := DByte 1 ]}; expireTimeout := -1 |}.

Definition three_calls : list (Oracle * NotifyArgs) :=
  [ (sample_oracle 10, sample_args 0 "first");
    (sample_oracle 20, sample_args 0 "second");
    (sample_oracle 30, sample_args 0 "third") ].

Definition one_stored : World :=
  snd (storeNotification (sample_cfg 2) (sample_oracle 10)
         (sample_args 0 "first") (init None)).

Definition two_stored : World :=
  snd (storeNotification (sample_cfg 2) (sample_oracle 20)
         (sample_args 0 "second") one_stored).

(** A process that starts with [max_items = 1] on a cache file written
    when two records were allowed. *)

Definition over_cap : World :=
  Setup (sample_cfg 1) (sample_oracle 25)
    (init (file (saveToFile (sample_oracle 21) two_stored))).

(** A client names the largest ID as the one to replace; the store is
    persisted and the process restarted. *)

Definition top_id_stored : World :=
  snd (storeNotification (sample_cfg 100) (sample_oracle 10)
         (sample_args 4294967295 "top") (init None)).

Definition top_id_reloaded : World :=
  Setup (sample_cfg 100) (sample_oracle 15)
    (init (file (saveToFile (sample_oracle 12) top_id_stored))).

(** A client names an ID that was never handed out, then ordinary
    notifications follow. *)

Definition after_named_five : World :=
  snd (storeNotification (sample_cfg 100) (sample_oracle 10)
         (sample_args 5 "named") (init None)).

Definition five_fresh_calls : list (Oracle * NotifyArgs) :=
  [ (sample_oracle 20, sample_args 0 "a"); (sample_oracle 30, sample_args 0 "b");
    (sample_oracle 40, sample_args 0 "c"); (sample_oracle 50, sample_args 0 "d");
    (sample_oracle 60, sample_args 0 "e") ].

(** A Notify-shaped signal, the body that carries the arguments of a call
    with the types of the method, and a body whose replaces-ID arrives as a
    signed integer. *)

Definition notify_signal (sbody : list Dyn) : Signal :=
  {| sig_name := "org.freedesktop.Notifications.Notify"; sig_body := sbody |}.

Definition call_body (c : NotifyCall) (rest : list Dyn) : list Dyn :=
  [ DString (nc_appName c); DUint32 (nc_replacesID c); DString (nc_appIcon c);
    DString (nc_summary c); DString (nc_body c); DStrings (nc_actions c);
    DVariantMap (nc_hints c); DInt32 (nc_expireTimeout c) ] ++ rest.

Definition sample_call : NotifyCall :=
  {| nc_appName := "mail"; nc_replacesID := 0; nc_appIcon := "";
     nc_summary := "hello"; nc_body := "world"; nc_actions := ["default"];
     nc_hints := {[ "urgency" := MakeVariant (DByte 1);
                    "category" := MakeVariant (DString "email") ]};
     nc_expireTimeout := -1 |}.

Definition mistyped_body : list Dyn :=
  [ DString "mail"; DInt32 7; DString ""; DString "hello"; DString "world";
    DStrings ["default"]; DVariantMap ∅; DInt32 (-1) ].

Definition unknown_action (action : string) : Prop :=
  action <> "" /\ action <> ActionDismiss /\ action <> ActionDismissAll /\
  action <> ActionCopy /\ action <> ActionCopyBody.

Definition id_action (action : string) : Prop :=
  action = "" \/ action = ActionDismiss \/ action = ActionCopy \/
  action = ActionCopyBody.

(** Newest first: no later element of the list is more recent. *)

Definition newer_or_equal (a b : Notification) : Prop := Time b <= Time a.

Definition newest_first (ns : list Notification) : Prop :=
  StronglySorted newer_or_equal ns.

(** The comparison of [by_time] read on the notifications themselves. *)

Definition later_first (a b : Notification) : Z :=
  Time_Compare (Time b) (Time a).

(** The item of rank [k] in the answer to the empty query. *)

Definition ranked_item (x : Externals) (cfg : Config) (k : nat)
    (n : Notification) : Item :=
  with_score (10000 - Z.of_nat k) (build_item x cfg n).

Definition sample_externals : Externals :=
  {| FuzzyScore := fun _ _ _ => (0, [], 0); QueryResponse_REGULAR := 0;
     PreviewTypeText := "text";
     format_RFC1123 := fun _ => "Mon, 02 Jan 2006 15:04:05 MST" |}.

(** ** The rest of the package *)

(** startDBusServer.  What the session bus answers is the record [Bus];
    [signals] is what arrives on the channel while the listener runs.  The
    warning and information lines of the log are not traced, the error
    lines are.  The result names the point where the function stopped or
    came to rest: [Serving] is the final [select {}], [Listening] the loop
    of listenForSignals. *)

Inductive RequestNameReply : Type :=
| ReplyPrimaryOwner
| ReplyInQueue
| ReplyExists
| ReplyAlreadyOwner.

Record Bus := {
  session_bus_ok : bool;                    (* dbus.SessionBus *)
  request_name : option RequestNameReply;   (* conn.RequestName; None: error *)
  add_match_ok : bool;                      (* conn.AddMatchSignal *)
  export_ok : bool;                         (* conn.Export of the server *)
  export_introspect_ok : bool;              (* conn.Export of the introspection *)
  signals : list (Oracle * Signal)
}.


Definition with_conn (c : bool) (w : World) : World :=
  {| history := history w; nextID := nextID w; file := file w; conn := c;
     trace := trace w |}.




(** State: the count line and the bulk action.  [%d] of a length is its
    decimal form. *)

Record ProviderStateResponse := {
  States : list string;
  StateActions : list string
}.

Definition State (w : World) : ProviderStateResponse :=
  let count := Z.of_nat (size (history w)) in
  {| States := [FormatUint count ++ " notifications"];
     StateActions := if 0 <? count then [ActionDismissAll] else [] |}.

(** The IDs returned by a sequence of inserts. *)

Fixpoint insert_ids (cfg : Config) (calls : list (Oracle * NotifyArgs))
    (w : World) : list Z :=
  match calls with
  | [] => []
  | (o, a) :: rest =>
    fst (storeNotification cfg o a w)
    :: insert_ids cfg rest (snd (storeNotification cfg o a w))
  end.

(** The entry points that change the world, and a run of them.  [OpSave] is
    the goroutine that storeNotification spawns, run at some later point. *)

Inductive Op : Type :=
| OpNotify (c : NotifyCall)
| OpCloseNotification (id : Z)
| OpActivate (identifier action : string)
| OpSignal (s : Signal)
| OpSave.

Definition step (cfg : Config) (o : Oracle) (op : Op) (w : World)
    : option World :=
  match op with
  | OpNotify c => Some (snd (Notify cfg o c w))
  | OpCloseNotification id => Some (CloseNotification cfg o id w)
  | OpActivate identifier action => Some (Activate cfg o identifier action w)
  | OpSignal s => listen_step cfg o s w
  | OpSave => Some (saveToFile o w)
  end.

Fixpoint run (cfg : Config) (ops : list (Oracle * Op)) (w : World)
    : option World :=
  match ops with
  | [] => Some w
  | (o, op) :: rest => w' ← step cfg o op w; run cfg rest w'
  end.

(** The arguments that arrive as [uint32] are 32-bit values. *)

Definition op_typed (op : Op) : Prop :=
  match op with
  | OpNotify c => uint32 (nc_replacesID c)
  | OpCloseNotification id => uint32 id
  | OpSignal s => forall z, sig_body s !! 1%nat = Some (DUint32 z) -> uint32 z
  | OpActivate _ _ | OpSave => True
  end.

(** A cache file that decodes holds records under their own IDs. *)

Definition file_ok (f : option Blob) : Prop :=
  forall m, f = Some (GobStream m) -> keys_match m.

Definition world_ok (w : World) : Prop :=
  uint32 (nextID w) /\ keys_match (history w) /\ file_ok (file w).

(** The text the fuzzy scorer is given for a notification, and the item a
    non-empty query appends for it. *)

Definition search_text (n : Notification) : string :=
  Summary n ++ " " ++ Body n ++ " " ++ AppName n.

Definition fuzzy_score (x : Externals) (query : string) (exact : bool)
    (n : Notification) : Z :=
  fst (fst (FuzzyScore x query (search_text n) exact)).

Definition io_ok (o : Oracle) : Prop :=
  encode_ok o = true /\ mkdir_ok o = true /\ write_ok o = true.

Definition sample_bus (reply : option RequestNameReply) : Bus :=
  {| session_bus_ok := true; request_name := reply; add_match_ok := true;
     export_ok := true; export_introspect_ok := true;
     signals := [ (sample_oracle 10, notify_signal (call_body sample_call []));
                  (sample_oracle 20, notify_signal [DString "short"]) ] |}.

Definition sample_ops : list (Oracle * Op) :=
  [ (sample_oracle 10, OpNotify sample_call);
    (sample_oracle 20, OpSignal (notify_signal mistyped_body));
    (sample_oracle 30, OpSave);
    (sample_oracle 40, OpActivate "1" "copy");
    (sample_oracle 50, OpCloseNotification 2);
    (sample_oracle 60, OpActivate "" "dismiss_all") ].

(** An item shows a notification when it is the item built for it, up to
    the score and the match positions. *)

Definition shows (x : Externals) (cfg : Config) (e : Item) (n : Notification)
    : Prop :=
  with_fuzzy 0 [] 0 e = build_item x cfg n.

Definition sample_item : Item :=
  ranked_item sample_externals (sample_cfg 2) 0
    (new_notification 2 (sample_args 0 "second") 20).

(** What a comma-ok assertion leaves in a field: the value carried by the
    argument when it has the asserted type, the zero value of that type
    otherwise. *)

Definition string_or_zero (d : Dyn) (v : string) : Prop :=
  match d with DString s => v = s | _ => v = "" end.

Definition uint32_or_zero (d : Dyn) (v : Z) : Prop :=
  match d with DUint32 z => v = z | _ => v = 0 end.

Definition int32_or_zero (d : Dyn) (v : Z) : Prop :=
  match d with DInt32 z => v = z | _ => v = 0 end.

Definition strings_or_zero (d : Dyn) (v : list string) : Prop :=
  match d with DStrings l => v = l | _ => v = [] end.

Definition hints_or_zero (d : Dyn) (v : gmap string Dyn) : Prop :=
  match d with DVariantMap m => v = Variant_Value <$> m | _ => v = ∅ end.

(** With [max_items = 1]: a client names the largest ID, the store is
    persisted and the process restarted, and one notification follows; it
    is stored under ID 0 and the record under the largest ID is evicted. *)

Definition top_id_capped : World :=
  Setup (sample_cfg 1) (sample_oracle 15)
    (init (file (saveToFile (sample_oracle 12)
                   (snd (storeNotification (sample_cfg 1) (sample_oracle 10)
                           (sample_args 4294967295 "top") (init None)))))).

Definition only_id_zero : World :=
  snd (storeNotification (sample_cfg 1) (sample_oracle 20)
         (sample_args 0 "zero") top_id_capped).

(** A scorer that gives 100 to a text the query is a prefix of, 0 to any
    other. *)

Definition prefix_externals : Externals :=
  {| FuzzyScore := fun q text _ =>
                     (if String.prefix q text then 100 else 0, [], 0);
     QueryResponse_REGULAR := 0; PreviewTypeText := "text";
     format_RFC1123 := fun _ => "Mon, 02 Jan 2006 15:04:05 MST" |}.

(** Lookups in maps built from inserts, deletes and singletons with
    literal keys. *)

Ltac lookup_cases :=
  rewrite ?lookup_delete, ?lookup_insert, ?lookup_singleton, ?lookup_empty;
  repeat case_decide; subst; try done; try lia.

Ltac map_cases := apply map_eq; intros ?; lookup_cases.

(** A leaf of the case analysis of startDBusServer: the outcome is read off
    and the conditions on the answers of the bus are settled. *)


(** * Properties *)

(** ** The eviction scan *)

Section TrimScan.

Implicit Types (es : list (Z * Notification)) (acc : Z * Z).

Lemma trim_fold_bound es acc :
  snd (fold_left trim_step es acc) <= snd acc.
Proof.
  revert acc. induction es as [|e es IH]; intros acc; simpl; [lia|].
  etransitivity; [apply IH|].
  unfold trim_step. destruct (Z.ltb_spec (Time (snd e)) (snd acc)); simpl; lia.
Qed.

Lemma trim_fold_lower es acc :
  Forall (fun e => snd (fold_left trim_step es acc) <= Time (snd e)) es.
Proof.
  revert acc. induction es as [|e es IH]; intros acc; simpl; constructor.
  - pose proof (trim_fold_bound es (trim_step acc e)) as Hb.
    unfold trim_step in *.
    destruct (Z.ltb_spec (Time (snd e)) (snd acc)); simpl in *; lia.
  - apply IH.
Qed.

Lemma trim_fold_pick es acc :
  fold_left trim_step es acc = acc \/
  exists n, (fst (fold_left trim_step es acc), n) ∈ es /\
            Time n = snd (fold_left trim_step es acc) /\
            snd (fold_left trim_step es acc) < snd acc.
Proof.
  revert acc. induction es as [|e es IH]; intros acc; simpl; [by left|].
  destruct (IH (trim_step acc e)) as [Heq | (n & Hin & Ht & Hlt)].
  - rewrite Heq. unfold trim_step.
    destruct (Z.ltb_spec (Time (snd e)) (snd acc)); [|by left].
    right. exists (snd e). simpl. split; [|lia].
    destruct e; simpl. apply list_elem_of_here.
  - right. exists n. split; [by apply list_elem_of_further|].
    split; [done|].
    unfold trim_step in *.
    destruct (Z.ltb_spec (Time (snd e)) (snd acc)); simpl in *; lia.
Qed.

(** The scan either finds nothing before [t], or returns the key of an
    entry that no other entry precedes in time. *)
Lemma trim_scan_spec t es :
  (fst (trim_scan t es) = 0 /\ Forall (fun e => t <= Time (snd e)) es) \/
  (exists n, (fst (trim_scan t es), n) ∈ es /\ Time n < t /\
             Forall (fun e => Time n <= Time (snd e)) es).
Proof.
  unfold trim_scan.
  pose proof (trim_fold_lower es (0, t)) as Hlow.
  destruct (trim_fold_pick es (0, t)) as [Heq | (n & Hin & Ht & Hlt)].
  - left. rewrite Heq in *. simpl in *. done.
  - right. exists n. simpl in Hlt. rewrite Ht. done.
Qed.

End TrimScan.

(** ** The store *)

Lemma range_elem o (h : History) k n :
  range_ok o -> (k, n) ∈ range o h <-> h !! k = Some n.
Proof. intros Hr. rewrite (Hr h). apply elem_of_map_to_list. Qed.

Lemma trimHistory_frame o w :
  nextID (trimHistory o w) = nextID w /\ file (trimHistory o w) = file w /\
  conn (trimHistory o w) = conn w /\ trace (trimHistory o w) = trace w.
Proof. unfold trimHistory. by destruct (0 <? _). Qed.

Lemma trimHistory_cases o w :
  history (trimHistory o w) = history w \/
  exists v, 0 < v /\ history (trimHistory o w) = delete v (history w).
Proof.
  unfold trimHistory.
  destruct (Z.ltb_spec 0 (fst (trim_scan (trim_now o) (range o (history w)))));
    [right; eauto | by left].
Qed.

Lemma assign_id_frame a w :
  history (snd (assign_id a w)) = history w /\
  file (snd (assign_id a w)) = file w /\
  conn (snd (assign_id a w)) = conn w /\
  trace (snd (assign_id a w)) = trace w.
Proof. unfold assign_id. by destruct (0 <? replacesID a). Qed.

(** The store after storeNotification, in terms of the map after the
    assignment. *)
Lemma store_history cfg o a w :
  history (snd (storeNotification cfg o a w)) =
    if MaxItems cfg <? Z.of_nat (size (after_put o a w))
    then history (trimHistory o
           (with_history (after_put o a w) (snd (assign_id a w))))
    else after_put o a w.
Proof.
  unfold storeNotification, after_put, chosen_id, over_limit, put.
  destruct (assign_id_frame a w) as (Hh & _).
  destruct (assign_id a w) as [id w1]; simpl in *. rewrite Hh.
  destruct (MaxItems cfg <? _); destruct (Persist cfg); reflexivity.
Qed.

Lemma store_id cfg o a w :
  fst (storeNotification cfg o a w) = chosen_id a w.
Proof.
  unfold storeNotification, chosen_id. by destruct (assign_id a w).
Qed.

Lemma store_nextID cfg o a w :
  nextID (snd (storeNotification cfg o a w)) = nextID (snd (assign_id a w)).
Proof.
  unfold storeNotification.
  destruct (assign_id a w) as [id w1]; simpl.
  destruct (over_limit cfg _); destruct (Persist cfg); simpl;
    rewrite ?(proj1 (trimHistory_frame _ _)); done.
Qed.

Lemma after_put_size o a w :
  (size (after_put o a w) <= S (size (history w)))%nat.
Proof.
  unfold after_put. rewrite map_size_insert.
  destruct (history w !! chosen_id a w); simpl; lia.
Qed.

Lemma chosen_id_uint32 a w :
  typed w -> uint32 (replacesID a) -> uint32 (chosen_id a w).
Proof.
  intros [Hn _] Ha. unfold chosen_id, assign_id.
  by destruct (0 <? replacesID a).
Qed.

Lemma after_put_typed o a w k n :
  typed w -> uint32 (replacesID a) ->
  after_put o a w !! k = Some n -> uint32 k.
Proof.
  intros Hw Ha. unfold after_put. rewrite lookup_insert.
  case_decide as Hk; [intros _; subst k; by apply chosen_id_uint32|].
  apply Hw.
Qed.

Lemma wrap32_uint32 z : uint32 (wrap32 z).
Proof. unfold uint32, wrap32. apply Z.mod_pos_bound. lia. Qed.

Lemma store_typed cfg o a w :
  typed w -> uint32 (replacesID a) -> typed (snd (storeNotification cfg o a w)).
Proof.
  intros Hw Ha. split.
  - rewrite store_nextID. unfold assign_id.
    destruct (0 <? replacesID a); simpl; [apply Hw | apply wrap32_uint32].
  - intros k n. rewrite store_history.
    destruct (MaxItems cfg <? _).
    + destruct (trimHistory_cases o
        (with_history (after_put o a w) (snd (assign_id a w))))
        as [-> | (v & _ & ->)]; simpl.
      * by apply after_put_typed.
      * intros Hk. apply lookup_delete_Some in Hk as [_ Hk].
        by apply after_put_typed in Hk.
    + by apply after_put_typed.
Qed.

Lemma store_subseteq cfg o a w :
  history (snd (storeNotification cfg o a w)) ⊆ after_put o a w.
Proof.
  rewrite store_history. destruct (MaxItems cfg <? _); [|done].
  destruct (trimHistory_cases o
    (with_history (after_put o a w) (snd (assign_id a w))))
    as [-> | (v & _ & ->)]; simpl; [done | apply delete_subseteq].
Qed.

Lemma after_put_new o a w :
  after_put o a w !! chosen_id a w
  = Some (new_notification (chosen_id a w) a (now o)).
Proof. unfold after_put. apply lookup_insert_eq. Qed.

(** The scan that follows an insert always has a candidate: the record
    just written. *)
Lemma insert_scan_finds cfg o a w :
  env_ok o ->
  MaxItems cfg < Z.of_nat (size (after_put o a w)) ->
  exists v vn,
    after_put o a w !! v = Some vn /\
    (forall k n, after_put o a w !! k = Some n -> Time vn <= Time n) /\
    history (snd (storeNotification cfg o a w))
    = if 0 <? v then delete v (after_put o a w) else after_put o a w.
Proof.
  intros [Hr Hc] Hover. rewrite store_history.
  apply Z.ltb_lt in Hover. rewrite Hover.
  unfold trimHistory; simpl.
  destruct (trim_scan_spec (trim_now o) (range o (after_put o a w)))
    as [[_ Hall] | (vn & Hin & Hlt & Hall)]; rewrite Forall_forall in Hall.
  - pose proof (after_put_new o a w) as Hnew.
    apply (range_elem o _ _ _ Hr) in Hnew. apply Hall in Hnew.
    simpl in Hnew. unfold clock_ok in Hc. lia.
  - apply (range_elem o _ _ _ Hr) in Hin.
    exists (fst (trim_scan (trim_now o) (range o (after_put o a w)))), vn.
    split; [done|]. split.
    + intros k n Hk. apply (range_elem o _ _ _ Hr) in Hk.
      by apply Hall in Hk.
    + by destruct (0 <? _).
Qed.

(** Eviction on insert, for a store whose IDs are valid. *)
Lemma insert_evicts cfg o a w :
  env_ok o -> typed w -> no_zero_key (history w) ->
  uint32 (replacesID a) -> chosen_id a w <> 0 ->
  MaxItems cfg < Z.of_nat (size (after_put o a w)) ->
  exists v vn,
    after_put o a w !! v = Some vn /\
    (forall k n, after_put o a w !! k = Some n -> Time vn <= Time n) /\
    (forall k n, after_put o a w !! k = Some n ->
       (forall k' n', after_put o a w !! k' = Some n' -> k' <> k ->
          Time n < Time n') -> v = k) /\
    history (snd (storeNotification cfg o a w)) = delete v (after_put o a w) /\
    size (history (snd (storeNotification cfg o a w)))
    = pred (size (after_put o a w)).
Proof.
  intros He Hw Hz Ha Hid Hover.
  destruct (insert_scan_finds cfg o a w He Hover) as (v & vn & Hv & Hmin & Hh).
  exists v, vn. split; [done|]. split; [done|].
  assert (0 < v) as Hpos.
  { pose proof (after_put_typed o a w v vn Hw Ha Hv) as Hu.
    assert (v <> 0); [|unfold uint32 in Hu; lia].
    intros ->. unfold after_put in Hv. rewrite lookup_insert in Hv.
    case_decide; [done|]. unfold no_zero_key in Hz. congruence. }
  apply Z.ltb_lt in Hpos. rewrite Hpos in Hh.
  split.
  - intros k n Hk Hstrict. destruct (decide (v = k)) as [|Hne]; [done|].
    specialize (Hstrict v vn Hv Hne). specialize (Hmin k n Hk). lia.
  - split; [done|]. rewrite Hh. apply map_size_delete_Some. eauto.
Qed.

(** ** C1: the size bound *)



Lemma init_typed f : typed (init f).
Proof. split; [unfold uint32; simpl; lia | intros k n; simpl; by rewrite lookup_empty]. Qed.

Lemma sample_env_ok t : env_ok (sample_oracle t).
Proof. split; [intros h; reflexivity | unfold clock_ok; simpl; lia]. Qed.






(** ** C3: eviction *)

Lemma store_fits cfg o a w :
  Z.of_nat (size (after_put o a w)) <= MaxItems cfg ->
  history (snd (storeNotification cfg o a w)) = after_put o a w.
Proof.
  intros Hfit. rewrite store_history.
  apply Z.ltb_ge in Hfit. by rewrite Hfit.
Qed.

Lemma fresh_put o a w :
  replacesID a = 0 ->
  after_put o a w
  = <[nextID w := new_notification (nextID w) a (now o)]> (history w)
  /\ nextID (snd (assign_id a w)) = wrap32 (nextID w + 1).
Proof.
  intros Hr. unfold after_put, chosen_id, assign_id. by rewrite Hr.
Qed.

Lemma three_inserts_keep_two_newest cfg o1 o2 o3 a1 a2 a3 f :
  MaxItems cfg = 2 ->
  env_ok o3 ->
  replacesID a1 = 0 -> replacesID a2 = 0 -> replacesID a3 = 0 ->
  now o1 < now o2 -> now o2 < now o3 ->
  exists w1 w2 w3,
    insert_run cfg [(o1, a1); (o2, a2); (o3, a3)] (init f) = [w1; w2; w3] /\
    history w3 = {[ 2 := new_notification 2 a2 (now o2);
                    3 := new_notification 3 a3 (now o3) ]}.
Proof.
  intros Hmax He H1 H2 H3 Ht12 Ht23.
  eexists _, _, _. split; [reflexivity|].
  set (w1 := snd (storeNotification cfg o1 a1 (init f))).
  set (w2 := snd (storeNotification cfg o2 a2 w1)).
  set (n1 := new_notification 1 a1 (now o1)).
  set (n2 := new_notification 2 a2 (now o2)).
  set (n3 := new_notification 3 a3 (now o3)).
  assert (history w1 = {[ 1 := n1 ]} /\ nextID w1 = 2) as [Hh1 Hn1].
  { subst w1. rewrite store_nextID.
    destruct (fresh_put o1 a1 (init f) H1) as [Hp ->]. split; [|done].
    rewrite store_fits; rewrite Hp; simpl.
    - by rewrite insert_empty.
    - rewrite Hmax, map_size_insert_None, map_size_empty by apply lookup_empty.
      lia. }
  assert (history w2 = {[ 1 := n1; 2 := n2 ]} /\ nextID w2 = 3) as [Hh2 Hn2].
  { subst w2. rewrite store_nextID.
    destruct (fresh_put o2 a2 w1 H2) as [Hp ->]. rewrite Hn1, Hh1 in *.
    split; [|done]. rewrite store_fits; rewrite Hp.
    - map_cases.
    - rewrite Hmax, map_size_insert_None, map_size_singleton; [lia|].
      lookup_cases. }
  assert (typed w2) as Hty.
  { split; [rewrite Hn2; unfold uint32; lia|].
    intros k n. rewrite Hh2. unfold uint32. lookup_cases. }
  destruct (fresh_put o3 a3 w2 H3) as [Hp _]. rewrite Hn2, Hh2 in Hp.
  assert (size (after_put o3 a3 w2) = 3%nat) as Hsz.
  { rewrite Hp.
    rewrite !map_size_insert_None, map_size_singleton; [done|lookup_cases..]. }
  destruct (insert_evicts cfg o3 a3 w2) as (v & vn & _ & _ & Huniq & Hh & _);
    try done.
  - unfold no_zero_key. rewrite Hh2. lookup_cases.
  - rewrite H3. unfold uint32. lia.
  - unfold chosen_id, assign_id. rewrite H3, Hn2. simpl. lia.
  - rewrite Hsz, Hmax. lia.
  - assert (v = 1) as ->.
    { apply (Huniq 1 n1).
      - rewrite Hp. lookup_cases.
      - intros k' n'. rewrite Hp. lookup_cases; intros [= <-] _; simpl; lia. }
    rewrite Hh, Hp. map_cases.
Qed.

(** X20.  Whenever the assignment of an insert leaves more than
    [max_items] records in a store with valid IDs (32-bit, none zero, the
    chosen ID not zero), exactly one record is removed: one that no other
    record precedes in time, hence the strictly oldest when there is one;
    this holds whatever the size of the store was before.  Three inserts
    with [max_items = 2] from the empty store leave the records of the
    second and the third. *)
Theorem X20_eviction_on_a_store_with_valid_ids :
  (forall cfg o a w,
     env_ok o -> typed w -> no_zero_key (history w) ->
     uint32 (replacesID a) -> chosen_id a w <> 0 ->
     MaxItems cfg < Z.of_nat (size (after_put o a w)) ->
     exists v vn,
       after_put o a w !! v = Some vn /\
       (forall k n, after_put o a w !! k = Some n -> Time vn <= Time n) /\
       (forall k n, after_put o a w !! k = Some n ->
          (forall k' n', after_put o a w !! k' = Some n' -> k' <> k ->
             Time n < Time n') -> v = k) /\
       history (snd (storeNotification cfg o a w)) = delete v (after_put o a w) /\
       size (history (snd (storeNotification cfg o a w)))
       = pred (size (after_put o a w))) /\
  (forall cfg o1 o2 o3 a1 a2 a3 f,
     MaxItems cfg = 2 ->
     env_ok o3 ->
     replacesID a1 = 0 -> replacesID a2 = 0 -> replacesID a3 = 0 ->
     now o1 < now o2 -> now o2 < now o3 ->
     exists w1 w2 w3,
       insert_run cfg [(o1, a1); (o2, a2); (o3, a3)] (init f) = [w1; w2; w3] /\
       history w3 = {[ 2 := new_notification 2 a2 (now o2);
                       3 := new_notification 3 a3 (now o3) ]}).
Proof.
  split.
  - intros. by apply insert_evicts.
  - intros. by apply three_inserts_keep_two_newest.
Qed.

Lemma two_stored_typed : typed two_stored.
Proof.
  unfold two_stored, one_stored.
  repeat apply store_typed; try apply init_typed; unfold uint32; simpl; lia.
Qed.

Lemma X20_eviction_witness :
  (exists v vn,
     after_put (sample_oracle 30) (sample_args 0 "third") two_stored !! v
     = Some vn /\
     (forall k n,
        after_put (sample_oracle 30) (sample_args 0 "third") two_stored !! k
        = Some n -> Time vn <= Time n) /\
     (forall k n,
        after_put (sample_oracle 30) (sample_args 0 "third") two_stored !! k
        = Some n ->
        (forall k' n',
           after_put (sample_oracle 30) (sample_args 0 "third") two_stored !! k'
           = Some n' -> k' <> k -> Time n < Time n') -> v = k) /\
     history (snd (storeNotification (sample_cfg 2) (sample_oracle 30)
                     (sample_args 0 "third") two_stored))
     = delete v (after_put (sample_oracle 30) (sample_args 0 "third") two_stored) /\
     size (history (snd (storeNotification (sample_cfg 2) (sample_oracle 30)
                           (sample_args 0 "third") two_stored)))
     = pred (size (after_put (sample_oracle 30) (sample_args 0 "third")
                     two_stored))) /\
  (exists w1 w2 w3,
     insert_run (sample_cfg 2) three_calls (init None) = [w1; w2; w3] /\
     history w3
     = {[ 2 := new_notification 2 (sample_args 0 "second") 20;
          3 := new_notification 3 (sample_args 0 "third") 30 ]}).
Proof.
  split.
  - apply (proj1 X20_eviction_on_a_store_with_valid_ids).
    + apply sample_env_ok.
    + apply two_stored_typed.
    + reflexivity.
    + unfold uint32; simpl; lia.
    + vm_compute. discriminate.
    + vm_compute. reflexivity.
  - apply (proj2 X20_eviction_on_a_store_with_valid_ids (sample_cfg 2)
             (sample_oracle 10) (sample_oracle 20) (sample_oracle 30)
             (sample_args 0 "first") (sample_args 0 "second")
             (sample_args 0 "third") None);
      try reflexivity; try apply sample_env_ok; simpl; lia.
Defined.

(** C3 fails on the code.  Once a record sits under ID 0 and is the
    oldest, an insert that exceeds the cap evicts nothing: the scan of
    trimHistory ends with [oldestID = 0], which its guard [oldestID > 0]
    reads as "nothing found".  Here, with [max_items = 1], the store holds
    the record under ID 0 alone; the next insert leaves two records, the
    older one still among them. *)
Theorem C3_no_eviction_when_the_oldest_has_id_zero :
  history only_id_zero
  = {[ 0 := new_notification 0 (sample_args 0 "zero") 20 ]} /\
  MaxItems (sample_cfg 1)
  < Z.of_nat (size (after_put (sample_oracle 30) (sample_args 0 "next")
                      only_id_zero)) /\
  history (snd (storeNotification (sample_cfg 1) (sample_oracle 30)
                  (sample_args 0 "next") only_id_zero))
  = {[ 0 := new_notification 0 (sample_args 0 "zero") 20;
       1 := new_notification 1 (sample_args 0 "next") 30 ]} /\
  size (history (snd (storeNotification (sample_cfg 1) (sample_oracle 30)
                        (sample_args 0 "next") only_id_zero))) = 2%nat.
Proof.
  split; [by vm_compute|]. split; [by vm_compute|].
  split; [by vm_compute | reflexivity].
Qed.

(** ** C5: inserts that name the ID to replace *)





(** ** C2: the ID counter and client-chosen IDs *)

(** C2 fails on the code.  After an insert that names ID 5 the counter is
    still 1, so the next insert without a replace ID is given 1, which is
    not above 5; the fifth such insert is given 5 itself and overwrites the
    record stored under it (five inserts later the store holds five
    records, not six). *)
Theorem C2_fresh_id_not_above_named_id :
  fst (storeNotification (sample_cfg 100) (sample_oracle 10)
         (sample_args 5 "named") (init None)) = 5 /\
  nextID after_named_five = 1 /\
  fst (storeNotification (sample_cfg 100) (sample_oracle 20)
         (sample_args 0 "a") after_named_five) = 1 /\
  (exists w,
     last (insert_run (sample_cfg 100) five_fresh_calls after_named_five)
     = Some w /\
     size (history w) = 5%nat /\
     Summary <$> history w !! 5 = Some "e").
Proof.
  do 3 (split; [reflexivity|]).
  eexists. split; [vm_compute; reflexivity|]. split; reflexivity.
Qed.

(** ** C9 and C6: the counter after a reload *)

Lemma bump_fold_ge ids next :
  Forall (fun k => 0 <= k < 2 ^ 32 - 1) ids ->
  next <= fold_left bump_nextID ids next /\
  Forall (fun k => k < fold_left bump_nextID ids next) ids.
Proof.
  intros Hids. revert next.
  induction Hids as [|k ids Hk _ IH]; intros next; simpl; [split; [lia|done]|].
  destruct (IH (bump_nextID next k)) as [Hge Hall].
  assert (next <= bump_nextID next k /\ k < bump_nextID next k) as [H1 H2].
  { unfold bump_nextID, wrap32.
    destruct (Z.leb_spec next k); rewrite ?Z.mod_small; lia. }
  split; [lia|]. constructor; [lia|done].
Qed.

(** What the reload does guarantee: a stream whose keys are all below the
    largest 32-bit value is restored as it was and the counter ends above
    every restored key. *)
Lemma load_restores o m f :
  range_ok o -> read_ok o = true ->
  (forall k n, m !! k = Some n -> 0 <= k < 2 ^ 32 - 1) ->
  f = Some (GobStream m) ->
  history (loadFromFile o (init f)) = m /\
  forall k n, m !! k = Some n -> k < nextID (loadFromFile o (init f)).
Proof.
  intros Hr Hread Hkeys ->. unfold loadFromFile. simpl. rewrite Hread. simpl.
  assert (m ∪ ∅ = m) as -> by apply (right_id_L _ _).
  split; [done|]. intros k n Hk.
  destruct (bump_fold_ge (fst <$> range o m) 1) as [_ Hall].
  - rewrite Forall_fmap, Forall_forall. intros [k' n'] Hin. simpl.
    apply (range_elem o _ _ _ Hr) in Hin. eauto.
  - rewrite Forall_forall in Hall. apply Hall.
    apply list_elem_of_fmap. exists (k, n). split; [done|].
    by apply (range_elem o _ _ _ Hr).
Qed.

(** What the mutations do preserve: deletions and the clearing of the
    store always, an insert whenever the ID it chooses is not zero. *)

Lemma saveToFile_history o w : history (saveToFile o w) = history w.
Proof.
  unfold saveToFile.
  by destruct (encode_ok o), (mkdir_ok o), (write_ok o).
Qed.

Lemma delete_keeps_inv (h : History) id : store_inv h -> store_inv (delete id h).
Proof.
  intros Hinv k n Hk. apply lookup_delete_Some in Hk as [_ Hk]. by apply Hinv.
Qed.

Lemma insert_keeps_inv cfg o a w :
  store_inv (history w) -> chosen_id a w <> 0 ->
  store_inv (history (snd (storeNotification cfg o a w))).
Proof.
  intros Hinv Hid k n Hk.
  pose proof (lookup_weaken _ _ _ _ Hk (store_subseteq cfg o a w)) as Hput.
  unfold after_put in Hput. rewrite lookup_insert in Hput.
  case_decide as Hc; [|by apply Hinv].
  injection Hput as <-. by subst k.
Qed.

Lemma CloseNotification_keeps_inv cfg o id w :
  store_inv (history w) -> store_inv (history (CloseNotification cfg o id w)).
Proof.
  intros Hinv. unfold CloseNotification.
  assert (history (if Persist cfg
                   then saveToFile o (with_history (delete id (history w)) w)
                   else with_history (delete id (history w)) w)
          = delete id (history w)) as Hh
    by (destruct (Persist cfg); [apply saveToFile_history | done]).
  destruct (conn _); simpl; rewrite Hh; by apply delete_keeps_inv.
Qed.

Lemma Activate_keeps_inv cfg o identifier action w :
  store_inv (history w) -> store_inv (history (Activate cfg o identifier action w)).
Proof.
  intros Hinv. unfold Activate, copyToClipboard.
  repeat match goal with
         | |- context [if ?b then _ else _] => destruct b
         | |- context [match ?p with (_, _) => _ end] => destruct p
         | |- context [match ?e with Some _ => _ | None => _ end] => destruct e
         end;
    rewrite ?saveToFile_history; simpl;
    first [ done | by apply delete_keeps_inv
          | intros k n; by rewrite lookup_empty ].
Qed.

(** C9 fails on the code.  A store that holds the largest ID is reloaded
    with every record under its own nonzero ID, the counter wraps to 0, and
    the next insert without a replace ID stores a record with ID 0. *)
Theorem C9_insert_stores_id_zero_after_wrap :
  store_inv (history top_id_reloaded) /\
  nextID top_id_reloaded = 0 /\
  fst (storeNotification (sample_cfg 100) (sample_oracle 20)
         (sample_args 0 "next") top_id_reloaded) = 0 /\
  ~ store_inv (history (snd (storeNotification (sample_cfg 100)
                               (sample_oracle 20) (sample_args 0 "next")
                               top_id_reloaded))).
Proof.
  split; [|split; [reflexivity | split; [reflexivity|]]].
  - intros k n. replace (history top_id_reloaded)
      with ({[ 4294967295 := new_notification 4294967295
                               (sample_args 4294967295 "top") 10 ]} : History)
      by (by vm_compute).
    rewrite lookup_singleton. case_decide; [|done].
    intros [= <-]. subst k. simpl. lia.
  - intros Hinv.
    destruct (Hinv 0 (new_notification 0 (sample_args 0 "next") 20)) as [_ Hnz];
      [by vm_compute | by apply Hnz].
Qed.

(** C6 fails on the code.  The saved store comes back as it was, but with
    the largest ID among the records the recomputed counter is 0 and
    exceeds none of them. *)
Theorem C6_reloaded_counter_wraps :
  history top_id_reloaded = history top_id_stored /\
  is_Some (history top_id_reloaded !! 4294967295) /\
  nextID top_id_reloaded = 0.
Proof. vm_compute. eauto. Qed.

(** ** strconv *)

Lemma digit_of_range c d : digit_of c = Some d -> 0 <= d <= 9.
Proof.
  unfold digit_of.
  destruct (Z.leb_spec 48 (Z.of_N (N_of_ascii c)));
    destruct (Z.leb_spec (Z.of_N (N_of_ascii c)) 57); simpl; intros [= <-]; lia.
Qed.

Lemma digit_of_char d : 0 <= d <= 9 -> digit_of (digit_char d) = Some d.
Proof.
  intros Hd.
  assert (d = 0 \/ d = 1 \/ d = 2 \/ d = 3 \/ d = 4 \/ d = 5 \/ d = 6 \/
          d = 7 \/ d = 8 \/ d = 9) as Hcases by lia.
  repeat destruct Hcases as [-> | Hcases]; try reflexivity.
  by subst d.
Qed.

Lemma parse_loop_range maxVal s n v :
  0 <= n <= maxVal -> parse_loop maxVal s n = (v, None) -> 0 <= v <= maxVal.
Proof.
  revert n. induction s as [|c s IH]; intros n Hn; simpl.
  - intros [= <-]. lia.
  - destruct (digit_of c) as [d|]; [|done].
    destruct (cutoff <=? n); [done|].
    destruct (Z.ltb_spec (wrap64 (wrap64 (n * 10) + d)) (wrap64 (n * 10)));
      simpl; [done|].
    destruct (Z.ltb_spec maxVal (wrap64 (wrap64 (n * 10) + d))); [done|].
    apply IH. split; [|lia].
    unfold wrap64. apply Z.mod_pos_bound. lia.
Qed.

Lemma ParseUint_range s v :
  ParseUint s 32 = (v, None) -> 0 <= v < 2 ^ 32.
Proof.
  unfold ParseUint. destruct (String.eqb s ""); [done|].
  intros H. apply parse_loop_range in H; lia.
Qed.

Lemma digits_value_ge s n v :
  0 <= n -> digits_value s n = Some v -> n <= v.
Proof.
  revert n. induction s as [|c s IH]; intros n Hn; simpl.
  - intros [= <-]. lia.
  - destruct (digit_of c) as [d|] eqn:Hd; [|done].
    apply digit_of_range in Hd. intros H. apply IH in H; lia.
Qed.

Lemma parse_loop_digits maxVal s n v :
  0 <= n -> maxVal < cutoff ->
  digits_value s n = Some v -> v <= maxVal ->
  parse_loop maxVal s n = (v, None).
Proof.
  intros Hn Hcut. revert n Hn.
  induction s as [|c s IH]; intros n Hn; simpl.
  - by intros [= <-].
  - destruct (digit_of c) as [d|] eqn:Hd; [|done].
    apply digit_of_range in Hd. intros Hv Hmax.
    pose proof (digits_value_ge s (n * 10 + d) v ltac:(lia) Hv) as Hge.
    assert (cutoff < 2 ^ 64) as Hc64 by (by vm_compute).
    destruct (Z.leb_spec cutoff n); [lia|].
    unfold wrap64. rewrite (Z.mod_small (n * 10)) by lia.
    rewrite (Z.mod_small (n * 10 + d)) by lia.
    destruct (Z.ltb_spec (n * 10 + d) (n * 10)); [lia|].
    destruct (Z.ltb_spec maxVal (n * 10 + d)); [lia|]. simpl.
    apply IH; [lia | done | done].
Qed.

Lemma formatBits_digits fuel u acc :
  0 <= u < 10 ^ Z.of_nat fuel ->
  exists p, forall n,
    digits_value (formatBits fuel u acc) n = digits_value acc (n * p + u).
Proof.
  revert u acc. induction fuel as [|fuel IH]; intros u acc Hu.
  - simpl in Hu. exists 1. intros n. simpl. f_equal. lia.
  - rewrite Nat2Z.inj_succ, Z.pow_succ_r in Hu by lia. simpl.
    destruct (Z.ltb_spec u 10).
    + exists 10. intros n. simpl. rewrite digit_of_char by lia. done.
    + destruct (IH (u / 10) (String (digit_char (u mod 10)) acc)) as [p Hp].
      { split; [apply Z.div_pos; lia|].
        apply Z.div_lt_upper_bound; lia. }
      exists (p * 10). intros n. rewrite Hp. simpl.
      rewrite digit_of_char by (pose proof (Z.mod_pos_bound u 10); lia).
      f_equal. pose proof (Z.div_mod u 10). lia.
Qed.

Lemma formatBits_nonempty fuel u acc :
  (0 < fuel)%nat -> String.eqb (formatBits fuel u acc) "" = false.
Proof.
  revert u acc. induction fuel as [|fuel IH]; intros u acc Hf; [lia|].
  simpl. destruct (u <? 10); [done|].
  destruct fuel; [done|]. apply IH. lia.
Qed.

Lemma ParseUint_FormatUint u :
  0 <= u < 2 ^ 32 -> ParseUint (FormatUint u) 32 = (u, None).
Proof.
  intros Hu. unfold ParseUint, FormatUint.
  rewrite formatBits_nonempty by lia.
  destruct (formatBits_digits 20 u "") as [p Hp]; [lia|].
  apply parse_loop_digits; [lia | by vm_compute | | lia].
  rewrite Hp. simpl. f_equal.
Qed.

(** ** C4: passive mode *)

Lemma decode_call_body c rest :
  decode_signal (call_body c rest)
  = Some {| appName := nc_appName c; replacesID := nc_replacesID c;
            appIcon := nc_appIcon c; summary := nc_summary c;
            body := nc_body c; actions := nc_actions c;
            hints := unwrap_hints (nc_hints c);
            expireTimeout := nc_expireTimeout c |}.
Proof. reflexivity. Qed.

Lemma decode_total sbody :
  (8 <= length sbody)%nat -> is_Some (decode_signal sbody).
Proof.
  intros Hlen. do 8 (destruct sbody as [|? sbody]; [simpl in Hlen; lia|]).
  simpl. eauto.
Qed.

(** C4 (amended).  A Notify signal whose first eight arguments have the
    types of the method is stored exactly like the direct call.  A signal
    with another name or fewer than eight arguments leaves the world as it
    is.  A Notify signal with at least eight arguments is never ignored:
    the store is called with, field by field, the value of the argument
    when it has the expected type and the zero value of that type (empty
    string, 0, no action, no hint) when it has not. *)
Theorem C4_signal_forwarding :
  (forall cfg o c rest w,
     listen_step cfg o (notify_signal (call_body c rest)) w
     = Some (snd (Notify cfg o c w))) /\
  (forall cfg o s w,
     sig_name s <> dbusInterface ++ ".Notify" \/ (length (sig_body s) < 8)%nat ->
     listen_step cfg o s w = Some w) /\
  (forall cfg o s w,
     sig_name s = dbusInterface ++ ".Notify" ->
     (8 <= length (sig_body s))%nat ->
     exists b0 b1 b2 b3 b4 b5 b6 b7 rest a,
       sig_body s = b0 :: b1 :: b2 :: b3 :: b4 :: b5 :: b6 :: b7 :: rest /\
       listen_step cfg o s w = Some (snd (storeNotification cfg o a w)) /\
       string_or_zero b0 (appName a) /\
       uint32_or_zero b1 (replacesID a) /\
       string_or_zero b2 (appIcon a) /\
       string_or_zero b3 (summary a) /\
       string_or_zero b4 (body a) /\
       strings_or_zero b5 (actions a) /\
       hints_or_zero b6 (hints a) /\
       int32_or_zero b7 (expireTimeout a)).
Proof.
  split; [|split].
  - intros cfg o c rest w. unfold listen_step, handleNotifySignal.
    assert (String.eqb (sig_name (notify_signal (call_body c rest)))
              (dbusInterface ++ ".Notify") = true) as -> by reflexivity.
    assert ((8 <=? Z.of_nat (length (sig_body (notify_signal
                                                 (call_body c rest))))) = true)
      as -> by (apply Z.leb_le; simpl; lia).
    cbn [andb notify_signal sig_body]. by rewrite decode_call_body.
  - intros cfg o s w Hbad. unfold listen_step.
    destruct Hbad as [Hname | Hlen].
    + apply String.eqb_neq in Hname. by rewrite Hname.
    + replace (8 <=? Z.of_nat (length (sig_body s))) with false
        by (symmetry; apply Z.leb_gt; lia).
      by rewrite andb_false_r.
  - intros cfg o s w Hname Hlen.
    unfold listen_step, handleNotifySignal.
    apply String.eqb_eq in Hname. rewrite Hname.
    replace (8 <=? Z.of_nat (length (sig_body s))) with true
      by (symmetry; apply Z.leb_le; lia).
    destruct (sig_body s) as [|b0 [|b1 [|b2 [|b3 [|b4 [|b5 [|b6 [|b7 rest]]]]]]]];
      try (simpl in Hlen; lia).
    exists b0, b1, b2, b3, b4, b5, b6, b7, rest.
    eexists. split; [reflexivity|]. split; [reflexivity|]. simpl.
    repeat split;
      match goal with
      | |- string_or_zero ?d _ => by destruct d
      | |- uint32_or_zero ?d _ => by destruct d
      | |- int32_or_zero ?d _ => by destruct d
      | |- strings_or_zero ?d _ => by destruct d
      | |- hints_or_zero ?d _ => by destruct d
      end.
Qed.

Lemma C4_signal_forwarding_witness :
  listen_step (sample_cfg 100) (sample_oracle 10)
    (notify_signal (call_body sample_call [])) (init None)
  = Some (snd (Notify (sample_cfg 100) (sample_oracle 10) sample_call
                 (init None))) /\
  listen_step (sample_cfg 100) (sample_oracle 10)
    (notify_signal [DString "mail"; DUint32 0]) (init None)
  = Some (init None) /\
  (exists b0 b1 b2 b3 b4 b5 b6 b7 rest a,
     sig_body (notify_signal mistyped_body)
     = b0 :: b1 :: b2 :: b3 :: b4 :: b5 :: b6 :: b7 :: rest /\
     listen_step (sample_cfg 100) (sample_oracle 10)
       (notify_signal mistyped_body) (init None)
     = Some (snd (storeNotification (sample_cfg 100) (sample_oracle 10) a
                    (init None))) /\
     string_or_zero b0 (appName a) /\
     uint32_or_zero b1 (replacesID a) /\
     string_or_zero b2 (appIcon a) /\
     string_or_zero b3 (summary a) /\
     string_or_zero b4 (body a) /\
     strings_or_zero b5 (actions a) /\
     hints_or_zero b6 (hints a) /\
     int32_or_zero b7 (expireTimeout a)).
Proof.
  split; [|split].
  - apply (proj1 C4_signal_forwarding).
  - apply (proj1 (proj2 C4_signal_forwarding)). right. simpl. lia.
  - apply (proj2 (proj2 C4_signal_forwarding)); [reflexivity | simpl; lia].
Defined.

(** C4 as stated fails for a wrong argument type: a Notify signal whose
    replaces-ID is a signed integer is not ignored; the assertion yields 0
    and a record is stored under a fresh ID. *)
Lemma C4_counterexample_mistyped_signal :
  exists w,
    listen_step (sample_cfg 100) (sample_oracle 10)
      (notify_signal mistyped_body) (init None) = Some w /\
    size (history (init None)) = 0%nat /\
    size (history w) = 1%nat /\
    Summary <$> history w !! 1 = Some "hello".
Proof. eexists. split; [vm_compute; reflexivity|]. repeat split. Qed.

(** ** C8 and C10: activation *)

Lemma emit_frame e w :
  history (emit e w) = history w /\ nextID (emit e w) = nextID w /\
  file (emit e w) = file w /\ conn (emit e w) = conn w /\
  trace (emit e w) = (trace w ++ [e])%list.
Proof. done. Qed.

(** C8.  An unknown action, or dismiss / copy / copy_body (the empty action
    counts as dismiss) with an identifier that is no 32-bit unsigned
    decimal, logs one error and changes nothing else: the store, the
    counter and the cache file are as before, and the trace gains the log
    line only (no clipboard command, no save). *)
Theorem C8_bad_activation_changes_nothing cfg o identifier action w :
  unknown_action action \/
  (id_action action /\ snd (ParseUint identifier 32) <> None) ->
  history (Activate cfg o identifier action w) = history w /\
  nextID (Activate cfg o identifier action w) = nextID w /\
  file (Activate cfg o identifier action w) = file w /\
  conn (Activate cfg o identifier action w) = conn w /\
  exists what,
    trace (Activate cfg o identifier action w)
    = (trace w ++ [EvLogError what])%list.
Proof.
  intros Hbad.
  assert (exists what,
            Activate cfg o identifier action w = emit (EvLogError what) w)
    as [what ->]; [|repeat split; eauto].
  destruct Hbad as [(H0 & H1 & H2 & H3 & H4) | [Hact Hparse]].
  - exists "activate". unfold Activate.
    apply String.eqb_neq in H0, H1, H2, H3, H4.
    by rewrite H0, H1, H2, H3, H4.
  - exists "parse id". unfold Activate.
    destruct (ParseUint identifier 32) as [v [err|]]; [|done].
    by destruct Hact as [-> | [-> | [-> | ->]]].
Qed.

Lemma C8_bad_activation_witness :
  history (Activate (sample_cfg 2) (sample_oracle 40) "4294967296" "copy"
             two_stored) = history two_stored /\
  nextID (Activate (sample_cfg 2) (sample_oracle 40) "4294967296" "copy"
            two_stored) = nextID two_stored /\
  file (Activate (sample_cfg 2) (sample_oracle 40) "4294967296" "copy"
          two_stored) = file two_stored /\
  conn (Activate (sample_cfg 2) (sample_oracle 40) "4294967296" "copy"
          two_stored) = conn two_stored /\
  exists what,
    trace (Activate (sample_cfg 2) (sample_oracle 40) "4294967296" "copy"
             two_stored) = (trace two_stored ++ [EvLogError what])%list.
Proof.
  apply C8_bad_activation_changes_nothing.
  right. split.
  - right. right. left. reflexivity.
  - vm_compute. discriminate.
Defined.

(** C10.  copy or copy_body with an identifier that parses but names no
    stored notification returns the world as it was: nothing is sent to the
    clipboard, nothing is logged, the store is unchanged. *)
Theorem C10_copy_of_absent_id_is_noop cfg o identifier action id w :
  action = ActionCopy \/ action = ActionCopyBody ->
  ParseUint identifier 32 = (id, None) ->
  history w !! id = None ->
  Activate cfg o identifier action w = w.
Proof.
  intros Hact Hparse Habsent. unfold Activate.
  pose proof (ParseUint_range identifier id Hparse) as Hr.
  rewrite Hparse. unfold wrap32. rewrite Z.mod_small by lia.
  rewrite Habsent. by destruct Hact as [-> | ->].
Qed.

Lemma C10_copy_of_absent_id_witness :
  Activate (sample_cfg 2) (sample_oracle 40) "7" "copy_body" two_stored
  = two_stored.
Proof.
  apply (C10_copy_of_absent_id_is_noop _ _ _ _ 7).
  - right. reflexivity.
  - reflexivity.
  - reflexivity.
Defined.

(** ** C7: the empty query *)

Section StableSort.

Context {A : Type}.
Implicit Types (cmp : A -> A -> Z) (l : list A).

Lemma insert_stable_perm cmp x l : insert_stable cmp x l ≡ₚ x :: l.
Proof.
  induction l as [|y l IH]; simpl; [done|].
  destruct (cmp y x <? 0); [|done].
  rewrite IH. apply perm_swap.
Qed.

Lemma SortStableFunc_perm cmp l : SortStableFunc cmp l ≡ₚ l.
Proof.
  induction l as [|x l IH]; simpl; [done|].
  rewrite insert_stable_perm. by rewrite IH.
Qed.

End StableSort.

Lemma insert_stable_fmap {A B : Type} (f : A -> B) cmp cmp' x (l : list A) :
  (forall y, y ∈ l -> cmp (f y) (f x) = cmp' y x) ->
  insert_stable cmp (f x) (f <$> l) = f <$> insert_stable cmp' x l.
Proof.
  induction l as [|y l IH]; intros Hcmp; simpl; [done|].
  rewrite (Hcmp y) by apply list_elem_of_here.
  destruct (cmp' y x <? 0); [|done]. simpl. f_equal.
  apply IH. intros z Hz. apply Hcmp. by apply list_elem_of_further.
Qed.

Lemma SortStableFunc_fmap {A B : Type} (f : A -> B) cmp cmp' (l : list A) :
  (forall a b, a ∈ l -> b ∈ l -> cmp (f a) (f b) = cmp' a b) ->
  SortStableFunc cmp (f <$> l) = f <$> SortStableFunc cmp' l.
Proof.
  induction l as [|x l IH]; intros Hcmp; [done|].
  rewrite fmap_cons. unfold SortStableFunc in *. rewrite !foldr_cons.
  rewrite IH.
  - apply insert_stable_fmap. intros y Hy.
    pose proof (SortStableFunc_perm cmp' l) as Hp.
    unfold SortStableFunc in Hp. rewrite Hp in Hy.
    apply Hcmp; [by apply list_elem_of_further | apply list_elem_of_here].
  - intros a b Ha Hb. apply Hcmp; by apply list_elem_of_further.
Qed.

Lemma later_first_neg a b : later_first a b < 0 <-> Time b < Time a.
Proof.
  unfold later_first, Time_Compare.
  destruct (Z.compare_spec (Time b) (Time a)); lia.
Qed.

Lemma insert_newest_first x ns :
  newest_first ns -> newest_first (insert_stable later_first x ns).
Proof.
  unfold newest_first. induction 1 as [|y ns Hs IH Hall]; simpl.
  - repeat constructor.
  - destruct (Z.ltb_spec (later_first y x) 0) as [Hlt | Hge].
    + apply later_first_neg in Hlt. constructor; [done|].
      rewrite insert_stable_perm. constructor; [|done].
      unfold newer_or_equal. lia.
    + assert (Time y <= Time x) as Hyx.
      { destruct (Z.lt_ge_cases (Time x) (Time y)) as [Hc|]; [|lia].
        apply later_first_neg in Hc. lia. }
      constructor; [by constructor|].
      constructor; [done|].
      eapply Forall_impl; [exact Hall|].
      unfold newer_or_equal. intros z Hz. lia.
Qed.

Lemma sort_newest_first ns : newest_first (SortStableFunc later_first ns).
Proof.
  induction ns as [|x ns IH]; simpl; [constructor|].
  by apply insert_newest_first.
Qed.

Lemma by_time_built x cfg (h : History) ka kb na nb :
  keys_match h -> h !! ka = Some na -> h !! kb = Some nb ->
  by_time h (build_item x cfg na) (build_item x cfg nb) = later_first na nb.
Proof.
  intros Hk Ha Hb. unfold by_time. simpl.
  destruct (Hk ka na Ha) as [-> Hra]. destruct (Hk kb nb Hb) as [-> Hrb].
  rewrite !ParseUint_FormatUint by done. simpl.
  unfold wrap32. rewrite !Z.mod_small by done.
  by rewrite Ha, Hb.
Qed.

Lemma omap_empty_query x cfg exact (ns : list Notification) :
  omap (query_entry x cfg "" exact) ns = build_item x cfg <$> ns.
Proof. induction ns as [|n ns IH]; simpl; [done|]. by f_equal. Qed.

Lemma wrap32s_small z : - 2 ^ 31 <= z < 2 ^ 31 -> wrap32s z = z.
Proof. intros Hz. unfold wrap32s. rewrite Z.mod_small; lia. Qed.

(** The answer to the empty query, as a function of the stored records. *)
Lemma Query_empty x cfg o exact w :
  range_ok o -> keys_match (history w) ->
  Z.of_nat (size (history w)) <= 2 ^ 31 + 10000 ->
  Query x cfg o "" exact w
  = imap (ranked_item x cfg)
      (SortStableFunc later_first (snd <$> range o (history w))).
Proof.
  intros Hr Hk Hsz. unfold Query. simpl. rewrite omap_empty_query.
  rewrite (SortStableFunc_fmap _ _ later_first).
  - unfold rank_scores. rewrite imap_fmap. apply imap_ext.
    intros k n Hkn. simpl. unfold ranked_item. f_equal.
    apply wrap32s_small. apply lookup_lt_Some in Hkn.
    rewrite SortStableFunc_perm, length_fmap, (Hr (history w)),
      length_map_to_list in Hkn.
    lia.
  - intros a b Ha Hb.
    apply list_elem_of_fmap in Ha as ([ka na] & -> & Ha).
    apply list_elem_of_fmap in Hb as ([kb nb] & -> & Hb).
    apply (range_elem o _ _ _ Hr) in Ha, Hb. simpl.
    by eapply by_time_built.
Qed.

Lemma store_keys_match cfg o a w :
  keys_match (history w) -> uint32 (nextID w) -> uint32 (replacesID a) ->
  keys_match (history (snd (storeNotification cfg o a w))).
Proof.
  intros Hk Hn Ha k n Hkn.
  pose proof (lookup_weaken _ _ _ _ Hkn (store_subseteq cfg o a w)) as Hput.
  unfold after_put in Hput. rewrite lookup_insert in Hput.
  case_decide as Hc; [|by apply Hk].
  injection Hput as <-. subst k. simpl. split; [done|].
  unfold chosen_id, assign_id. by destruct (0 <? replacesID a).
Qed.

Lemma two_stored_keys_match : keys_match (history two_stored).
Proof.
  unfold two_stored, one_stored.
  apply store_keys_match; [apply store_keys_match | | ];
    try (unfold uint32; simpl; lia).
  - intros k n. simpl. by rewrite lookup_empty.
  - apply store_typed; [apply init_typed | unfold uint32; simpl; lia].
Qed.

(** C7.  On a store whose records sit under their own IDs, the empty query
    returns one item per stored notification, newest first, and the item
    of rank k carries the score 10000 - k: the scores strictly decrease, by
    one per rank, from the top item. *)
Theorem C7_empty_query_newest_first x cfg o exact w :
  range_ok o -> keys_match (history w) ->
  Z.of_nat (size (history w)) <= 2 ^ 31 + 10000 ->
  exists ns,
    ns ≡ₚ snd <$> map_to_list (history w) /\
    newest_first ns /\
    Query x cfg o "" exact w = imap (ranked_item x cfg) ns /\
    length (Query x cfg o "" exact w) = size (history w) /\
    (forall k e, Query x cfg o "" exact w !! k = Some e ->
       Score e = 10000 - Z.of_nat k) /\
    (forall i j ei ej, (i < j)%nat ->
       Query x cfg o "" exact w !! i = Some ei ->
       Query x cfg o "" exact w !! j = Some ej ->
       Score ej < Score ei).
Proof.
  intros Hr Hk Hsz.
  pose proof (Query_empty x cfg o exact w Hr Hk Hsz) as HQ.
  assert (forall k e, Query x cfg o "" exact w !! k = Some e ->
            Score e = 10000 - Z.of_nat k) as Hscore.
  { intros k e. rewrite HQ, list_lookup_imap.
    destruct (_ !! k); simpl; [|done]. by intros [= <-]. }
  exists (SortStableFunc later_first (snd <$> range o (history w))).
  split; [by rewrite SortStableFunc_perm, (Hr (history w))|].
  split; [apply sort_newest_first|]. split; [done|]. split.
  - rewrite HQ, length_imap, SortStableFunc_perm, length_fmap,
      (Hr (history w)).
    apply length_map_to_list.
  - split; [done|]. intros i j ei ej Hij Hi Hj.
    rewrite (Hscore i ei Hi), (Hscore j ej Hj). lia.
Qed.

Lemma C7_empty_query_witness :
  exists ns,
    ns ≡ₚ snd <$> map_to_list (history two_stored) /\
    newest_first ns /\
    Query sample_externals (sample_cfg 2) (sample_oracle 40) "" false two_stored
    = imap (ranked_item sample_externals (sample_cfg 2)) ns /\
    length (Query sample_externals (sample_cfg 2) (sample_oracle 40) "" false
              two_stored) = size (history two_stored) /\
    (forall k e,
       Query sample_externals (sample_cfg 2) (sample_oracle 40) "" false
         two_stored !! k = Some e ->
       Score e = 10000 - Z.of_nat k) /\
    (forall i j ei ej, (i < j)%nat ->
       Query sample_externals (sample_cfg 2) (sample_oracle 40) "" false
         two_stored !! i = Some ei ->
       Query sample_externals (sample_cfg 2) (sample_oracle 40) "" false
         two_stored !! j = Some ej ->
       Score ej < Score ei).
Proof.
  apply C7_empty_query_newest_first.
  - apply sample_env_ok.
  - apply two_stored_keys_match.
  - vm_compute. discriminate.
Defined.

(** The scenario of the specification, evaluated: three stored
    notifications come back newest first with scores 10000, 9999, 9998. *)
Example query_three_stored :
  (fun e => (Identifier e, Score e)) <$>
    Query sample_externals (sample_cfg 100) (sample_oracle 40) "" false
      (snd (storeNotification (sample_cfg 100) (sample_oracle 30)
              (sample_args 0 "third") two_stored))
  = [("3", 10000); ("2", 9999); ("1", 9998)].
Proof. vm_compute. reflexivity. Qed.

(** * Further properties of the package *)

(** ** Inserts *)

Lemma store_trace cfg o a w :
  trace (snd (storeNotification cfg o a w))
  = (trace w ++ (if Persist cfg then [EvGoSaveToFile] else [])
       ++ [EvProviderUpdated "notifications:new"])%list
  /\ file (snd (storeNotification cfg o a w)) = file w
  /\ conn (snd (storeNotification cfg o a w)) = conn w.
Proof.
  unfold storeNotification.
  destruct (assign_id_frame a w) as (_ & Hf & Hc & Ht).
  destruct (assign_id a w) as [id w1]; simpl in *.
  destruct (over_limit cfg _); destruct (Persist cfg); simpl;
    repeat match goal with
           | |- context [trimHistory ?o ?w0] =>
             destruct (trimHistory_frame o w0) as (_ & -> & -> & ->)
           end; simpl; rewrite Hf, Hc, Ht, <- ?app_assoc; done.
Qed.

(** X1.  Inserts without a replace ID are numbered consecutively from the
    counter, as long as the counter does not pass the largest 32-bit
    value: the IDs returned are [nextID], [nextID + 1], ... *)
Theorem X1_fresh_ids_are_consecutive cfg calls w :
  Forall (fun c => replacesID (snd c) = 0) calls ->
  0 <= nextID w ->
  nextID w + Z.of_nat (length calls) <= 2 ^ 32 ->
  insert_ids cfg calls w = seqZ (nextID w) (Z.of_nat (length calls)).
Proof.
  intros Hcalls. revert w.
  induction Hcalls as [|[o a] calls Ha _ IH]; intros w Hpos Hroom;
    [reflexivity|].
  cbn [insert_ids length]. simpl in Ha.
  rewrite Nat2Z.inj_succ, seqZ_cons by lia.
  rewrite store_id. unfold chosen_id, assign_id at 1. rewrite Ha. simpl.
  f_equal. rewrite Z.pred_succ.
  destruct calls as [|c calls']; [reflexivity|].
  assert (nextID (snd (storeNotification cfg o a w)) = Z.succ (nextID w))
    as Hnext.
  { rewrite store_nextID. unfold assign_id. rewrite Ha. simpl.
    unfold wrap32. cbn [length] in Hroom. rewrite Z.mod_small; lia. }
  rewrite <- Hnext. cbn [length] in *. apply IH; rewrite ?Hnext; lia.
Qed.

Lemma X1_fresh_ids_witness :
  insert_ids (sample_cfg 2) three_calls (init None)
  = seqZ (nextID (init None)) (Z.of_nat (length three_calls)).
Proof.
  apply X1_fresh_ids_are_consecutive.
  - repeat constructor.
  - simpl. lia.
  - simpl. lia.
Defined.

(** X2.  An insert never writes the cache file and never logs: it leaves
    the file and the connection as they were, spawns the save goroutine
    exactly when persistence is on, and sends one update to the frontend. *)
Theorem X2_insert_effects cfg o a w :
  trace (snd (storeNotification cfg o a w))
  = (trace w ++ (if Persist cfg then [EvGoSaveToFile] else [])
       ++ [EvProviderUpdated "notifications:new"])%list
  /\ file (snd (storeNotification cfg o a w)) = file w
  /\ conn (snd (storeNotification cfg o a w)) = conn w.
Proof. apply store_trace. Qed.

(** X3.  The record just written survives the eviction that follows it
    whenever the store holds another record that is strictly older. *)
Theorem X3_new_record_survives_eviction cfg o a w k n :
  env_ok o ->
  history w !! k = Some n -> k <> chosen_id a w -> Time n < now o ->
  history (snd (storeNotification cfg o a w)) !! chosen_id a w
  = Some (new_notification (chosen_id a w) a (now o)).
Proof.
  intros He Hk Hne Hold.
  destruct (Z.ltb_spec (MaxItems cfg) (Z.of_nat (size (after_put o a w))))
    as [Hover | Hfit].
  - destruct (insert_scan_finds cfg o a w He Hover) as (v & vn & Hv & Hmin & ->).
    destruct (0 <? v); [|apply after_put_new].
    rewrite lookup_delete_ne; [apply after_put_new|].
    intros ->. rewrite after_put_new in Hv. injection Hv as <-.
    assert (after_put o a w !! k = Some n) as Hput
      by (unfold after_put; by rewrite lookup_insert_ne).
    apply Hmin in Hput. simpl in Hput. lia.
  - rewrite store_fits by done. apply after_put_new.
Qed.

Lemma X3_new_record_survives_witness :
  history (snd (storeNotification (sample_cfg 2) (sample_oracle 30)
                  (sample_args 0 "third") two_stored))
    !! chosen_id (sample_args 0 "third") two_stored
  = Some (new_notification (chosen_id (sample_args 0 "third") two_stored)
            (sample_args 0 "third") (now (sample_oracle 30))).
Proof.
  apply (X3_new_record_survives_eviction _ _ _ _ 1
           (new_notification 1 (sample_args 0 "first") 10)).
  - apply sample_env_ok.
  - reflexivity.
  - vm_compute. discriminate.
  - simpl. lia.
Defined.

(** X4.  On a store with valid IDs an insert never leaves more records
    than the larger of [max_items] and the size before: a store that was
    loaded above the cap does not grow. *)
Theorem X4_insert_never_grows_past_cap cfg o a w :
  env_ok o -> typed w -> no_zero_key (history w) ->
  uint32 (replacesID a) -> chosen_id a w <> 0 ->
  Z.of_nat (size (history (snd (storeNotification cfg o a w))))
  <= Z.max (MaxItems cfg) (Z.of_nat (size (history w))).
Proof.
  intros He Hw Hz Ha Hid.
  pose proof (after_put_size o a w) as Hput.
  destruct (Z.ltb_spec (MaxItems cfg) (Z.of_nat (size (after_put o a w))))
    as [Hover | Hfit].
  - destruct (insert_evicts cfg o a w He Hw Hz Ha Hid Hover)
      as (v & vn & _ & _ & _ & _ & ->). lia.
  - rewrite store_fits by done. lia.
Qed.

Lemma X4_insert_never_grows_witness :
  Z.of_nat (size (history (snd (storeNotification (sample_cfg 1)
                                  (sample_oracle 30) (sample_args 0 "third")
                                  over_cap))))
  <= Z.max (MaxItems (sample_cfg 1)) (Z.of_nat (size (history over_cap))).
Proof.
  apply X4_insert_never_grows_past_cap.
  - apply sample_env_ok.
  - split; [vm_compute; split; [discriminate | reflexivity]|].
    intros k n. replace (history over_cap) with (history two_stored)
      by (by vm_compute).
    apply two_stored_typed.
  - reflexivity.
  - unfold uint32; simpl; lia.
  - vm_compute. discriminate.
Defined.

(** X5.  trimHistory, on any store, removes at most one record (what is
    left is part of the store) and touches neither the counter, the cache
    file nor the trace; a record stored under key 0, or stamped at or after
    the clock reading of the scan, is never the one removed. *)
Theorem X5_trimHistory_spares o w :
  (size (history w) <= S (size (history (trimHistory o w))))%nat /\
  history (trimHistory o w) ⊆ history w /\
  nextID (trimHistory o w) = nextID w /\ file (trimHistory o w) = file w /\
  trace (trimHistory o w) = trace w /\
  (range_ok o ->
   forall k n, history w !! k = Some n ->
     k <= 0 \/ trim_now o <= Time n ->
     history (trimHistory o w) !! k = Some n).
Proof.
  destruct (trimHistory_frame o w) as (Hn & Hf & _ & Ht).
  split; [|split; [|split; [done|split; [done|split; [done|]]]]].
  - destruct (trimHistory_cases o w) as [-> | (v & _ & ->)]; [lia|].
    rewrite map_size_delete. destruct (history w !! v); simpl; lia.
  - destruct (trimHistory_cases o w) as [-> | (v & _ & ->)];
      [done | apply delete_subseteq].
  - intros Hr k n Hk Hsafe. unfold trimHistory.
    destruct (Z.ltb_spec 0 (fst (trim_scan (trim_now o) (range o (history w)))))
      as [Hpos|]; [|done].
    simpl. rewrite lookup_delete_ne; [done|]. intros Heq.
    destruct (trim_scan_spec (trim_now o) (range o (history w)))
      as [[H0 _] | (vn & Hin & Hlt & _)]; [lia|].
    apply (range_elem o _ _ _ Hr) in Hin. rewrite Heq, Hk in Hin.
    injection Hin as <-. lia.
Qed.

(** On two records stamped 10 and 20 and a scan at 16, the first is
    removed and the second, stamped after the scan, is kept. *)
Lemma X5_trimHistory_spares_witness :
  ((size (history two_stored)
    <= S (size (history (trimHistory (sample_oracle 15) two_stored))))%nat /\
   history (trimHistory (sample_oracle 15) two_stored) ⊆ history two_stored /\
   nextID (trimHistory (sample_oracle 15) two_stored) = nextID two_stored /\
   file (trimHistory (sample_oracle 15) two_stored) = file two_stored /\
   trace (trimHistory (sample_oracle 15) two_stored) = trace two_stored /\
   (range_ok (sample_oracle 15) ->
    forall k n, history two_stored !! k = Some n ->
      k <= 0 \/ trim_now (sample_oracle 15) <= Time n ->
      history (trimHistory (sample_oracle 15) two_stored) !! k = Some n)) /\
  history (trimHistory (sample_oracle 15) two_stored) !! 1 = None /\
  history (trimHistory (sample_oracle 15) two_stored) !! 2
  = Some (new_notification 2 (sample_args 0 "second") 20).
Proof.
  split; [apply X5_trimHistory_spares|]. split; [reflexivity|].
  apply (proj2 (proj2 (proj2 (proj2 (proj2
           (X5_trimHistory_spares (sample_oracle 15) two_stored)))))).
  - apply sample_env_ok.
  - reflexivity.
  - right. simpl. lia.
Defined.

(** ** An invariant of every run *)

Lemma keys_match_delete (h : History) k : keys_match h -> keys_match (delete k h).
Proof.
  intros Hk i n Hi. apply lookup_delete_Some in Hi as [_ Hi]. by apply Hk.
Qed.

Lemma keys_match_empty : keys_match (∅ : History).
Proof. intros k n. by rewrite lookup_empty. Qed.

Lemma world_ok_emit e w : world_ok w -> world_ok (emit e w).
Proof. done. Qed.

Lemma world_ok_history h w :
  keys_match h -> world_ok w -> world_ok (with_history h w).
Proof. intros Hh (Hn & _ & Hf). by split. Qed.

Lemma world_ok_save o w : world_ok w -> world_ok (saveToFile o w).
Proof.
  intros (Hn & Hk & Hf). unfold saveToFile.
  destruct (encode_ok o), (mkdir_ok o), (write_ok o); simpl; try done.
  split; [done|]. split; [done|]. by intros m [= <-].
Qed.

Lemma world_ok_save_if (b : bool) o w :
  world_ok w -> world_ok (if b then saveToFile o w else w).
Proof. destruct b; [apply world_ok_save | done]. Qed.

Lemma world_ok_store cfg o a w :
  uint32 (replacesID a) -> world_ok w ->
  world_ok (snd (storeNotification cfg o a w)).
Proof.
  intros Ha (Hn & Hk & Hf). split; [|split].
  - apply store_typed; [|done]. split; [done|].
    intros k n Hkn. by apply Hk in Hkn as [_ ?].
  - by apply store_keys_match.
  - by destruct (store_trace cfg o a w) as (_ & -> & _).
Qed.

Lemma world_ok_close cfg o id w :
  world_ok w -> world_ok (CloseNotification cfg o id w).
Proof.
  intros Hw. unfold CloseNotification.
  assert (world_ok (if Persist cfg
                    then saveToFile o (with_history (delete id (history w)) w)
                    else with_history (delete id (history w)) w)) as Hw'.
  { apply world_ok_save_if, world_ok_history; [|done].
    apply keys_match_delete. by destruct Hw as (_ & Hk & _). }
  destruct (conn _); [by apply world_ok_emit | done].
Qed.

Lemma world_ok_activate cfg o identifier action w :
  world_ok w -> world_ok (Activate cfg o identifier action w).
Proof.
  intros Hw. unfold Activate, copyToClipboard.
  repeat match goal with
         | |- world_ok (if Persist cfg then _ else _) => apply world_ok_save_if
         | |- world_ok (if ?b then _ else _) => destruct b
         | |- world_ok (match ?p with (_, _) => _ end) => destruct p
         | |- world_ok (match ?e with Some _ => _ | None => _ end) => destruct e
         | |- world_ok (emit _ _) => apply world_ok_emit
         | |- world_ok (with_history _ _) => apply world_ok_history
         | |- keys_match (delete _ _) =>
           apply keys_match_delete; by destruct Hw as (_ & Hk & _)
         | |- keys_match ∅ => apply keys_match_empty
         end; done.
Qed.

Lemma decode_replacesID sbody a :
  decode_signal sbody = Some a ->
  replacesID a = 0 \/ sbody !! 1%nat = Some (DUint32 (replacesID a)).
Proof.
  do 8 (destruct sbody as [|? sbody]; [done|]). simpl. intros [= <-]. simpl.
  match goal with |- assert_uint32 ?d = 0 \/ _ => destruct d end; simpl; eauto.
Qed.

Lemma listen_step_total cfg o s w : is_Some (listen_step cfg o s w).
Proof.
  unfold listen_step, handleNotifySignal.
  destruct (String.eqb _ _); simpl; [|eauto].
  destruct (Z.leb_spec 8 (Z.of_nat (length (sig_body s)))); [|eauto].
  destruct (decode_total (sig_body s)) as [a ->]; [lia|]. simpl. eauto.
Qed.

Lemma world_ok_listen cfg o s w w' :
  op_typed (OpSignal s) -> world_ok w ->
  listen_step cfg o s w = Some w' -> world_ok w'.
Proof.
  intros Hs Hw. unfold listen_step, handleNotifySignal.
  destruct (_ && _); [|by intros [= <-]].
  destruct (decode_signal (sig_body s)) as [a|] eqn:Ha; [|done].
  simpl. intros [= <-]. apply world_ok_store; [|done].
  destruct (decode_replacesID _ _ Ha) as [-> | Hb];
    [unfold uint32; lia | by apply Hs].
Qed.

Lemma bump_fold_uint32 ids next :
  uint32 next -> uint32 (fold_left bump_nextID ids next).
Proof.
  revert next. induction ids as [|k ids IH]; intros next Hn; simpl; [done|].
  apply IH. unfold bump_nextID.
  destruct (next <=? k); [apply wrap32_uint32 | done].
Qed.

Lemma world_ok_load o w : world_ok w -> world_ok (loadFromFile o w).
Proof.
  intros (Hn & Hk & Hf). unfold loadFromFile.
  destruct (file w) as [blob|] eqn:Hfile; [|by rewrite <- Hfile in Hf].
  destruct (read_ok o); simpl; [|by rewrite <- Hfile in Hf].
  destruct blob as [m|]; simpl.
  - split; [by apply bump_fold_uint32|]. simpl. split; [|by rewrite Hfile].
    intros k n Hkn. apply lookup_union_Some_raw in Hkn as [Hm | [_ Hh]];
      [by eapply (Hf m) | by apply Hk].
  - split; [by apply bump_fold_uint32|]. simpl. split; [done|].
    by rewrite Hfile.
Qed.

Lemma world_ok_init f : file_ok f -> world_ok (init f).
Proof.
  intros Hf. split; [unfold uint32; simpl; lia|].
  split; [apply keys_match_empty | done].
Qed.

Lemma world_ok_step cfg o op w :
  op_typed op -> world_ok w ->
  exists w', step cfg o op w = Some w' /\ world_ok w'.
Proof.
  intros Hop Hw. destruct op as [c|id|identifier action|s|]; simpl.
  - eexists. split; [done|]. by apply world_ok_store.
  - eexists. split; [done|]. by apply world_ok_close.
  - eexists. split; [done|]. by apply world_ok_activate.
  - destruct (listen_step_total cfg o s w) as [w' Hw'].
    exists w'. split; [done|]. by eapply world_ok_listen.
  - eexists. split; [done|]. by apply world_ok_save.
Qed.

Lemma world_ok_run cfg ops w :
  Forall (fun p => op_typed (snd p)) ops -> world_ok w ->
  exists w', run cfg ops w = Some w' /\ world_ok w'.
Proof.
  intros Hops. revert w.
  induction Hops as [|[o op] ops Hop _ IH]; intros w Hw; simpl; [eauto|].
  destruct (world_ok_step cfg o op w Hop Hw) as (w1 & -> & Hw1). simpl.
  by apply IH.
Qed.

(** X6.  Whatever the order of calls, signals, activations and saves after
    start-up without a cache file or on one that decodes to records under
    their own IDs, the
    run does not stop on a panic and ends in a world where every record
    sits under its own 32-bit ID, in the store and in the cache file, and
    where the counter is a 32-bit value. *)
Theorem X6_every_run_keeps_records_under_their_ids cfg o0 f ops :
  f <> Some Garbage -> file_ok f ->
  Forall (fun p => op_typed (snd p)) ops ->
  exists w,
    run cfg ops (Setup cfg o0 (init f)) = Some w /\
    uint32 (nextID w) /\ keys_match (history w) /\ file_ok (file w).
Proof.
  intros _ Hf Hops. apply world_ok_run; [done|].
  unfold Setup. destruct (Persist cfg); [apply world_ok_load|];
    by apply world_ok_init.
Qed.

Lemma X6_every_run_witness :
  exists w,
    run (sample_cfg 100) sample_ops
      (Setup (sample_cfg 100) (sample_oracle 5) (init None)) = Some w /\
    uint32 (nextID w) /\ keys_match (history w) /\ file_ok (file w).
Proof.
  apply X6_every_run_keeps_records_under_their_ids.
  - discriminate.
  - intros m. discriminate.
  - repeat constructor; simpl; unfold uint32; try lia; discriminate.
Defined.

(** ** Query and activation *)

Lemma query_entry_shows x cfg q exact n e :
  query_entry x cfg q exact n = Some e ->
  shows x cfg e n /\
  (q <> "" -> Score e = fuzzy_score x q exact n /\ MinScore cfg < Score e).
Proof.
  unfold query_entry, fuzzy_score, search_text.
  destruct (String.eqb_spec q "") as [-> | Hq]; [by intros [= <-]|].
  destruct (FuzzyScore x q _ exact) as [[sc pos] st]. simpl.
  destruct (Z.ltb_spec (MinScore cfg) sc); [|done].
  intros [= <-]. by split.
Qed.

Lemma entries_elem x cfg o q exact w e :
  range_ok o ->
  e ∈ omap (query_entry x cfg q exact) (snd <$> range o (history w)) ->
  exists k n, history w !! k = Some n /\ query_entry x cfg q exact n = Some e.
Proof.
  intros Hr He. apply list_elem_of_omap in He as (n & Hn & He).
  apply list_elem_of_fmap in Hn as ([k n'] & -> & Hn).
  apply (range_elem o _ _ _ Hr) in Hn. eauto.
Qed.

Lemma Query_elem x cfg o q exact w e :
  range_ok o -> e ∈ Query x cfg o q exact w ->
  exists k n,
    history w !! k = Some n /\ shows x cfg e n /\
    (q <> "" -> Score e = fuzzy_score x q exact n /\ MinScore cfg < Score e).
Proof.
  intros Hr. unfold Query.
  destruct (String.eqb_spec q "") as [-> | Hq].
  - unfold rank_scores. intros He.
    apply elem_of_lookup_imap in He as (i & e0 & -> & Hi).
    apply list_elem_of_lookup_2 in Hi. rewrite SortStableFunc_perm in Hi.
    apply (entries_elem _ _ _ _ _ _ _ Hr) in Hi as (k & n & Hk & He0).
    exists k, n. split; [done|]. split; [|done].
    injection He0 as <-. reflexivity.
  - intros He.
    apply (entries_elem _ _ _ _ _ _ _ Hr) in He as (k & n & Hk & He).
    exists k, n. split; [done|]. by apply query_entry_shows.
Qed.

Lemma shows_identifier x cfg e n :
  shows x cfg e n -> Identifier e = FormatUint (ID n).
Proof. unfold shows. intros H. by apply (f_equal Identifier) in H. Qed.

(** X7.  Every item a query returns, whatever the query, shows a stored
    notification (its texts, icon and preview are those built for that
    record), and its identifier is the decimal form of the record's key:
    it parses back to that key without error. *)
Theorem X7_query_items_name_stored_records x cfg o q exact w e :
  range_ok o -> keys_match (history w) ->
  e ∈ Query x cfg o q exact w ->
  exists k n,
    history w !! k = Some n /\ shows x cfg e n /\
    Identifier e = FormatUint k /\
    ParseUint (Identifier e) 32 = (k, None).
Proof.
  intros Hr Hk He.
  destruct (Query_elem x cfg o q exact w e Hr He) as (k & n & Hkn & Hs & _).
  exists k, n. split; [done|]. split; [done|].
  destruct (Hk k n Hkn) as [Hid Hrange].
  rewrite (shows_identifier _ _ _ _ Hs), Hid.
  split; [done|]. by apply ParseUint_FormatUint.
Qed.

Lemma sample_item_queried :
  sample_item
  ∈ Query sample_externals (sample_cfg 2) (sample_oracle 40) "" false two_stored.
Proof. vm_compute. apply list_elem_of_here. Qed.

Lemma X7_query_items_witness :
  exists k n,
    history two_stored !! k = Some n /\
    shows sample_externals (sample_cfg 2) sample_item n /\
    Identifier sample_item = FormatUint k /\
    ParseUint (Identifier sample_item) 32 = (k, None).
Proof.
  apply (X7_query_items_name_stored_records sample_externals (sample_cfg 2)
           (sample_oracle 40) "" false two_stored sample_item).
  - apply sample_env_ok.
  - apply two_stored_keys_match.
  - apply sample_item_queried.
Defined.

Lemma omap_length_le {A B : Type} (f : A -> option B) (l : list A) :
  (length (omap f l) <= length l)%nat.
Proof.
  induction l as [|a l IH]; simpl; [lia|].
  change (list_omap A B f l) with (omap f l).
  destruct (f a); simpl; lia.
Qed.

(** X8.  A non-empty query returns exactly the notifications whose fuzzy
    score is above [min_score]: every returned item carries the score of
    the record it shows, which exceeds the threshold, and every stored
    record whose score exceeds it is shown by some returned item. *)
Theorem X8_search_keeps_scores_above_threshold x cfg o q exact w :
  range_ok o -> q <> "" ->
  (forall e, e ∈ Query x cfg o q exact w ->
     exists k n, history w !! k = Some n /\ shows x cfg e n /\
                 Score e = fuzzy_score x q exact n /\ MinScore cfg < Score e) /\
  (forall k n, history w !! k = Some n ->
     MinScore cfg < fuzzy_score x q exact n ->
     exists e, e ∈ Query x cfg o q exact w /\ shows x cfg e n /\
               Score e = fuzzy_score x q exact n) /\
  (length (Query x cfg o q exact w) <= size (history w))%nat.
Proof.
  intros Hr Hq. split; [|split].
  - intros e He.
    destruct (Query_elem x cfg o q exact w e Hr He) as (k & n & Hk & Hs & Hsc).
    destruct (Hsc Hq). eauto 10.
  - intros k n Hk Hsc. unfold Query.
    apply String.eqb_neq in Hq as Hq'. rewrite Hq'.
    destruct (query_entry x cfg q exact n) as [e|] eqn:He.
    + exists e. destruct (query_entry_shows _ _ _ _ _ _ He) as [Hs Hsc'].
      destruct (Hsc' Hq) as [-> _]. split; [|done].
      apply list_elem_of_omap. exists n. split; [|done].
      apply list_elem_of_fmap. exists (k, n). split; [done|].
      by apply (range_elem o _ _ _ Hr).
    + exfalso. revert He Hsc. unfold query_entry, fuzzy_score, search_text.
      rewrite Hq'. destruct (FuzzyScore x q _ exact) as [[sc pos] st]. simpl.
      destruct (Z.ltb_spec (MinScore cfg) sc); [done | lia].
  - unfold Query. apply String.eqb_neq in Hq. rewrite Hq.
    etransitivity; [apply omap_length_le|].
    rewrite length_fmap, (Hr (history w)), length_map_to_list. done.
Qed.

Lemma two_stored_second :
  history two_stored !! 2
  = Some (new_notification 2 (sample_args 0 "second") 20).
Proof. reflexivity. Qed.

(** With the prefix scorer and the query "second" on the two stored
    records, the second scores 100 and is the one item returned, the first
    scores 0 and is left out. *)
Lemma X8_search_witness :
  ((forall e,
      e ∈ Query prefix_externals (sample_cfg 2) (sample_oracle 40) "second"
            false two_stored ->
      exists k n, history two_stored !! k = Some n /\
                  shows prefix_externals (sample_cfg 2) e n /\
                  Score e = fuzzy_score prefix_externals "second" false n /\
                  MinScore (sample_cfg 2) < Score e) /\
   (forall k n, history two_stored !! k = Some n ->
      MinScore (sample_cfg 2) < fuzzy_score prefix_externals "second" false n ->
      exists e,
        e ∈ Query prefix_externals (sample_cfg 2) (sample_oracle 40) "second"
              false two_stored /\
        shows prefix_externals (sample_cfg 2) e n /\
        Score e = fuzzy_score prefix_externals "second" false n) /\
   (length (Query prefix_externals (sample_cfg 2) (sample_oracle 40) "second"
              false two_stored) <= size (history two_stored))%nat) /\
  (exists e,
     e ∈ Query prefix_externals (sample_cfg 2) (sample_oracle 40) "second"
           false two_stored /\
     shows prefix_externals (sample_cfg 2) e
       (new_notification 2 (sample_args 0 "second") 20) /\
     Score e
     = fuzzy_score prefix_externals "second" false
         (new_notification 2 (sample_args 0 "second") 20)) /\
  fuzzy_score prefix_externals "second" false
    (new_notification 2 (sample_args 0 "second") 20) = 100 /\
  Identifier <$>
    Query prefix_externals (sample_cfg 2) (sample_oracle 40) "second" false
      two_stored = ["2"].
Proof.
  split; [|split; [|split; [reflexivity | by vm_compute]]].
  - apply X8_search_keeps_scores_above_threshold;
      [apply sample_env_ok | discriminate].
  - apply (proj1 (proj2 (X8_search_keeps_scores_above_threshold
             prefix_externals (sample_cfg 2) (sample_oracle 40) "second" false
             two_stored (proj1 (sample_env_ok 40)) ltac:(discriminate))) 2).
    + apply two_stored_second.
    + vm_compute. reflexivity.
Defined.

Lemma saveToFile_ok o w :
  io_ok o -> saveToFile o w = with_file (Some (GobStream (history w))) w.
Proof. intros (He & Hm & Hw). unfold saveToFile. by rewrite He, Hm, Hw. Qed.

Lemma saveToFile_frame o w :
  history (saveToFile o w) = history w /\ nextID (saveToFile o w) = nextID w /\
  conn (saveToFile o w) = conn w.
Proof.
  unfold saveToFile. by destruct (encode_ok o), (mkdir_ok o), (write_ok o).
Qed.

Lemma save_if_frame (b : bool) o w :
  history (if b then saveToFile o w else w) = history w /\
  nextID (if b then saveToFile o w else w) = nextID w.
Proof. destruct b; [|done]. split; apply saveToFile_frame. Qed.

Lemma Activate_dismiss cfg o identifier action k w :
  action = "" \/ action = ActionDismiss ->
  ParseUint identifier 32 = (k, None) ->
  Activate cfg o identifier action w
  = if Persist cfg
    then saveToFile o (with_history (delete k (history w)) w)
    else with_history (delete k (history w)) w.
Proof.
  intros Hact Hparse. unfold Activate.
  pose proof (ParseUint_range identifier k Hparse) as Hr.
  rewrite Hparse. unfold wrap32. rewrite Z.mod_small by lia.
  by destruct Hact as [-> | ->].
Qed.

(** X9.  dismiss (also the empty action) with an identifier that parses to
    k removes the record under k and nothing else, leaves the counter
    alone, and with persistence on and working I/O writes the remaining
    records to the cache file before it returns; when no record sits under
    k the store is unchanged. *)
Theorem X9_dismiss_removes_one_record cfg o identifier action k w :
  action = "" \/ action = ActionDismiss ->
  ParseUint identifier 32 = (k, None) ->
  history (Activate cfg o identifier action w) = delete k (history w) /\
  nextID (Activate cfg o identifier action w) = nextID w /\
  (history w !! k = None ->
   history (Activate cfg o identifier action w) = history w) /\
  (Persist cfg = true -> io_ok o ->
   file (Activate cfg o identifier action w)
   = Some (GobStream (delete k (history w))) /\
   trace (Activate cfg o identifier action w) = trace w).
Proof.
  intros Hact Hparse. rewrite (Activate_dismiss _ _ _ _ k) by done.
  destruct (save_if_frame (Persist cfg) o
              (with_history (delete k (history w)) w)) as [Hh Hn].
  split; [done|]. split; [done|].
  - split.
    + intros Habs. rewrite Hh. by apply delete_id.
    + intros -> Hio. by rewrite saveToFile_ok.
Qed.

Lemma X9_dismiss_witness :
  history (Activate (sample_cfg 2) (sample_oracle 40) "01" "" two_stored)
  = delete 1 (history two_stored) /\
  nextID (Activate (sample_cfg 2) (sample_oracle 40) "01" "" two_stored)
  = nextID two_stored /\
  (history two_stored !! 1 = None ->
   history (Activate (sample_cfg 2) (sample_oracle 40) "01" "" two_stored)
   = history two_stored) /\
  (Persist (sample_cfg 2) = true -> io_ok (sample_oracle 40) ->
   file (Activate (sample_cfg 2) (sample_oracle 40) "01" "" two_stored)
   = Some (GobStream (delete 1 (history two_stored))) /\
   trace (Activate (sample_cfg 2) (sample_oracle 40) "01" "" two_stored)
   = trace two_stored).
Proof.
  apply X9_dismiss_removes_one_record.
  - left. reflexivity.
  - reflexivity.
Defined.

(** X10.  copy_body with an identifier that names a stored notification
    hands exactly its body to the clipboard command, copy hands its
    summary, a line feed and its body; the store, the counter and the
    cache file are untouched, and a log line follows only when the command
    fails. *)
Theorem X10_copy_sends_the_text cfg o identifier action k n w :
  action = ActionCopy \/ action = ActionCopyBody ->
  ParseUint identifier 32 = (k, None) ->
  history w !! k = Some n ->
  history (Activate cfg o identifier action w) = history w /\
  nextID (Activate cfg o identifier action w) = nextID w /\
  file (Activate cfg o identifier action w) = file w /\
  trace (Activate cfg o identifier action w)
  = (trace w
     ++ [EvClipboard (if String.eqb action ActionCopyBody then Body n
                      else Summary n ++ nl ++ Body n)]
     ++ (if clip_ok o then [] else [EvLogError "copy to clipboard"]))%list.
Proof.
  intros Hact Hparse Hk. unfold Activate, copyToClipboard.
  pose proof (ParseUint_range identifier k Hparse) as Hr.
  rewrite Hparse. unfold wrap32. rewrite Z.mod_small by lia. rewrite Hk.
  destruct Hact as [-> | ->]; simpl; destruct (clip_ok o); simpl;
    rewrite <- ?app_assoc; done.
Qed.

Lemma X10_copy_witness :
  history (Activate (sample_cfg 2) (sample_oracle 40) "2" "copy_body" two_stored)
  = history two_stored /\
  nextID (Activate (sample_cfg 2) (sample_oracle 40) "2" "copy_body" two_stored)
  = nextID two_stored /\
  file (Activate (sample_cfg 2) (sample_oracle 40) "2" "copy_body" two_stored)
  = file two_stored /\
  trace (Activate (sample_cfg 2) (sample_oracle 40) "2" "copy_body" two_stored)
  = (trace two_stored
     ++ [EvClipboard (if String.eqb "copy_body" ActionCopyBody
                      then Body (new_notification 2 (sample_args 0 "second") 20)
                      else Summary (new_notification 2 (sample_args 0 "second") 20)
                           ++ nl
                           ++ Body (new_notification 2 (sample_args 0 "second") 20))]
     ++ (if clip_ok (sample_oracle 40) then []
         else [EvLogError "copy to clipboard"]))%list.
Proof.
  apply (X10_copy_sends_the_text _ _ _ _ 2).
  - right. reflexivity.
  - reflexivity.
  - reflexivity.
Defined.

Lemma Query_of_empty x cfg o q exact w :
  range_ok o -> history w = ∅ -> Query x cfg o q exact w = [].
Proof.
  intros Hr Hh. unfold Query.
  assert (range o (history w) = []) as ->.
  { apply Permutation_nil_r. rewrite (Hr (history w)), Hh.
    by rewrite map_to_list_empty. }
  simpl. by destruct (String.eqb q "").
Qed.

Lemma Activate_dismiss_all cfg o identifier w :
  history (Activate cfg o identifier ActionDismissAll w) = ∅ /\
  nextID (Activate cfg o identifier ActionDismissAll w) = nextID w.
Proof.
  assert (Activate cfg o identifier ActionDismissAll w
          = if Persist cfg then saveToFile o (with_history ∅ w)
            else with_history ∅ w) as -> by reflexivity.
  apply (save_if_frame (Persist cfg) o (with_history ∅ w)).
Qed.

(** X11.  dismiss_all empties the store whatever the identifier is, keeps
    the counter (the IDs handed out before are not handed out again by the
    next insert without a replace ID, which gets the counter's value), and
    every query on the result is empty. *)
Theorem X11_dismiss_all_clears cfg o identifier w :
  history (Activate cfg o identifier ActionDismissAll w) = ∅ /\
  nextID (Activate cfg o identifier ActionDismissAll w) = nextID w /\
  (forall o' a, replacesID a = 0 ->
     fst (storeNotification cfg o' a
            (Activate cfg o identifier ActionDismissAll w)) = nextID w) /\
  (forall x o' q exact, range_ok o' ->
     Query x cfg o' q exact (Activate cfg o identifier ActionDismissAll w) = []).
Proof.
  destruct (Activate_dismiss_all cfg o identifier w) as [Hh Hn].
  split; [done|]. split; [done|]. split.
  - intros o' a Ha. rewrite store_id. unfold chosen_id, assign_id.
    by rewrite Ha, Hn.
  - intros x o' q exact Hr. by apply Query_of_empty.
Qed.

Lemma X11_dismiss_all_witness :
  history (Activate (sample_cfg 2) (sample_oracle 40) "x" ActionDismissAll
             two_stored) = ∅ /\
  nextID (Activate (sample_cfg 2) (sample_oracle 40) "x" ActionDismissAll
            two_stored) = nextID two_stored /\
  (forall o' a, replacesID a = 0 ->
     fst (storeNotification (sample_cfg 2) o' a
            (Activate (sample_cfg 2) (sample_oracle 40) "x" ActionDismissAll
               two_stored)) = nextID two_stored) /\
  (forall x o' q exact, range_ok o' ->
     Query x (sample_cfg 2) o' q exact
       (Activate (sample_cfg 2) (sample_oracle 40) "x" ActionDismissAll
          two_stored) = []).
Proof. apply X11_dismiss_all_clears. Defined.

Lemma FormatUint_inj k k' :
  uint32 k -> uint32 k' -> FormatUint k = FormatUint k' -> k = k'.
Proof.
  intros Hk Hk' Heq.
  pose proof (ParseUint_FormatUint k Hk) as H1.
  pose proof (ParseUint_FormatUint k' Hk') as H2.
  rewrite Heq in H1. congruence.
Qed.

Lemma omap_keys_NoDup {A B K : Type} (f : A -> option B) (key : B -> K)
    (h : A -> K) (l : list A) :
  (forall a b, f a = Some b -> key b = h a) ->
  NoDup (h <$> l) -> NoDup (key <$> omap f l).
Proof.
  intros Hkey. induction l as [|a l IH]; simpl; [constructor|].
  rewrite NoDup_cons. intros [Hnin Hnd].
  change (list_omap A B f l) with (omap f l).
  destruct (f a) as [b|] eqn:Hfa; simpl; [|by apply IH].
  apply NoDup_cons. split; [|by apply IH].
  intros Hin. apply Hnin.
  apply list_elem_of_fmap in Hin as (b' & Hb' & Hin).
  apply list_elem_of_omap in Hin as (a' & Ha' & Hfa').
  apply list_elem_of_fmap. exists a'. split; [|done].
  rewrite <- (Hkey a b Hfa), Hb'. by apply Hkey.
Qed.

Lemma stored_identifiers_NoDup o (h : History) :
  range_ok o -> keys_match h ->
  NoDup ((fun n => FormatUint (ID n)) <$> (snd <$> range o h)).
Proof.
  intros Hr Hk. rewrite <- list_fmap_compose.
  assert ((fun n => FormatUint (ID n)) ∘ snd <$> range o h
          = FormatUint ∘ fst <$> range o h) as ->.
  { apply list_fmap_ext. intros i [k n] Hi. simpl.
    apply list_elem_of_lookup_2, (range_elem o _ _ _ Hr) in Hi.
    by destruct (Hk k n Hi) as [-> _]. }
  rewrite list_fmap_compose. apply NoDup_fmap_2_strong.
  - intros k k' Hin Hin' Heq.
    apply list_elem_of_fmap in Hin as ([? n] & -> & Hin).
    apply list_elem_of_fmap in Hin' as ([? n'] & -> & Hin').
    apply (range_elem o _ _ _ Hr) in Hin, Hin'. simpl in *.
    apply FormatUint_inj; [by eapply Hk | by eapply Hk | done].
  - rewrite (Hr h). apply NoDup_fst_map_to_list.
Qed.

(** X12.  No two items of a query result carry the same identifier. *)
Theorem X12_query_identifiers_are_distinct x cfg o q exact w :
  range_ok o -> keys_match (history w) ->
  NoDup (Identifier <$> Query x cfg o q exact w).
Proof.
  intros Hr Hk.
  assert (NoDup (Identifier <$>
                   omap (query_entry x cfg q exact)
                     (snd <$> range o (history w)))) as Hnd.
  { apply (omap_keys_NoDup _ _ (fun n => FormatUint (ID n)));
      [|by apply stored_identifiers_NoDup].
    intros n e He. apply query_entry_shows in He as [Hs _].
    by apply shows_identifier in Hs. }
  unfold Query. destruct (String.eqb q ""); [|done].
  unfold rank_scores. rewrite fmap_imap.
  rewrite (imap_ext _ (const Identifier)) by done.
  rewrite imap_const. by rewrite SortStableFunc_perm.
Qed.

Lemma X12_query_identifiers_witness :
  NoDup (Identifier <$>
           Query sample_externals (sample_cfg 2) (sample_oracle 40) "" false
             two_stored).
Proof.
  apply X12_query_identifiers_are_distinct.
  - apply sample_env_ok.
  - apply two_stored_keys_match.
Defined.

(** X13.  Dismissing an item that a query returned removes exactly the
    notification it shows: the store loses that one record, and no later
    query, whatever it asks, returns an item with that identifier. *)
Theorem X13_dismissed_item_is_gone x cfg o o' q exact action w e :
  range_ok o -> keys_match (history w) ->
  e ∈ Query x cfg o q exact w ->
  action = "" \/ action = ActionDismiss ->
  (exists k n,
     history w !! k = Some n /\ shows x cfg e n /\
     history (Activate cfg o' (Identifier e) action w) = delete k (history w)) /\
  size (history (Activate cfg o' (Identifier e) action w))
  = pred (size (history w)) /\
  (forall x' o'' q' exact' e',
     range_ok o'' ->
     e' ∈ Query x' cfg o'' q' exact' (Activate cfg o' (Identifier e) action w) ->
     Identifier e' <> Identifier e).
Proof.
  intros Hr Hk He Hact.
  destruct (Query_elem x cfg o q exact w e Hr He) as (k & n & Hkn & Hs & _).
  destruct (Hk k n Hkn) as [Hid Hrange].
  assert (Identifier e = FormatUint k) as Hide
    by (by rewrite (shows_identifier _ _ _ _ Hs), Hid).
  assert (history (Activate cfg o' (Identifier e) action w)
          = delete k (history w)) as Hh.
  { rewrite (Activate_dismiss _ _ _ _ k);
      [apply save_if_frame | done | rewrite Hide; by apply ParseUint_FormatUint]. }
  split; [eauto|]. split.
  - rewrite Hh. apply map_size_delete_Some. eauto.
  - intros x' o'' q' exact' e' Hr' He'.
    destruct (Query_elem _ _ _ _ _ _ _ Hr' He') as (k' & n' & Hkn' & Hs' & _).
    rewrite Hh in Hkn'. apply lookup_delete_Some in Hkn' as [Hne Hkn'].
    destruct (Hk k' n' Hkn') as [Hid' Hrange'].
    rewrite (shows_identifier _ _ _ _ Hs'), Hid', Hide.
    intros Heq. apply FormatUint_inj in Heq; [congruence | done | done].
Qed.

Lemma X13_dismissed_item_witness :
  (exists k n,
     history two_stored !! k = Some n /\
     shows sample_externals (sample_cfg 2) sample_item n /\
     history (Activate (sample_cfg 2) (sample_oracle 50)
                (Identifier sample_item) "dismiss" two_stored)
     = delete k (history two_stored)) /\
  size (history (Activate (sample_cfg 2) (sample_oracle 50)
                   (Identifier sample_item) "dismiss" two_stored))
  = pred (size (history two_stored)) /\
  (forall x' o'' q' exact' e',
     range_ok o'' ->
     e' ∈ Query x' (sample_cfg 2) o'' q' exact'
            (Activate (sample_cfg 2) (sample_oracle 50)
               (Identifier sample_item) "dismiss" two_stored) ->
     Identifier e' <> Identifier sample_item).
Proof.
  apply (X13_dismissed_item_is_gone sample_externals (sample_cfg 2)
           (sample_oracle 40) (sample_oracle 50) "" false).
  - apply sample_env_ok.
  - apply two_stored_keys_match.
  - apply sample_item_queried.
  - right. reflexivity.
Defined.

(** ** Persistence and restarts *)

Lemma Setup_fresh_history cfg o m :
  Persist cfg = true -> read_ok o = true ->
  history (Setup cfg o (init (Some (GobStream m)))) = m.
Proof.
  intros Hp Hread. unfold Setup, loadFromFile. rewrite Hp. simpl.
  rewrite Hread. simpl. apply (right_id_L _ _).
Qed.

(** X14.  With persistence on and working I/O a removal is on disk when
    the call returns: a process restarted on the cache file left by
    dismiss, dismiss_all or CloseNotification starts with exactly the
    records that remained.  An insert leaves the file to the goroutine it
    spawns: restarted on the file as the insert left it, the process
    starts as it would have before the insert. *)
Theorem X14_removals_are_on_disk cfg o o' w :
  Persist cfg = true -> io_ok o -> read_ok o' = true ->
  (forall identifier action k,
     action = "" \/ action = ActionDismiss ->
     ParseUint identifier 32 = (k, None) ->
     history (Setup cfg o' (init (file (Activate cfg o identifier action w))))
     = delete k (history w)) /\
  (forall identifier,
     history (Setup cfg o' (init (file (Activate cfg o identifier
                                          ActionDismissAll w)))) = ∅) /\
  (forall id,
     history (Setup cfg o' (init (file (CloseNotification cfg o id w))))
     = delete id (history w)) /\
  (forall a,
     Setup cfg o' (init (file (snd (storeNotification cfg o a w))))
     = Setup cfg o' (init (file w))).
Proof.
  intros Hp Hio Hread. split; [|split; [|split]].
  - intros identifier action k Hact Hparse.
    rewrite (Activate_dismiss _ _ _ _ k), Hp, saveToFile_ok by done.
    by apply Setup_fresh_history.
  - intros identifier.
    assert (Activate cfg o identifier ActionDismissAll w
            = if Persist cfg then saveToFile o (with_history ∅ w)
              else with_history ∅ w) as -> by reflexivity.
    rewrite Hp, saveToFile_ok by done. by apply Setup_fresh_history.
  - intros id. unfold CloseNotification.
    rewrite Hp, saveToFile_ok by done.
    destruct (conn _); simpl; by apply Setup_fresh_history.
  - intros a. by destruct (store_trace cfg o a w) as (_ & -> & _).
Qed.

Lemma sample_io_ok t : io_ok (sample_oracle t).
Proof. by repeat split. Qed.

Lemma X14_removals_witness :
  (forall identifier action k,
     action = "" \/ action = ActionDismiss ->
     ParseUint identifier 32 = (k, None) ->
     history (Setup (sample_cfg 2) (sample_oracle 50)
                (init (file (Activate (sample_cfg 2) (sample_oracle 40)
                               identifier action two_stored))))
     = delete k (history two_stored)) /\
  (forall identifier,
     history (Setup (sample_cfg 2) (sample_oracle 50)
                (init (file (Activate (sample_cfg 2) (sample_oracle 40)
                               identifier ActionDismissAll two_stored)))) = ∅) /\
  (forall id,
     history (Setup (sample_cfg 2) (sample_oracle 50)
                (init (file (CloseNotification (sample_cfg 2) (sample_oracle 40)
                               id two_stored))))
     = delete id (history two_stored)) /\
  (forall a,
     Setup (sample_cfg 2) (sample_oracle 50)
       (init (file (snd (storeNotification (sample_cfg 2) (sample_oracle 40) a
                           two_stored))))
     = Setup (sample_cfg 2) (sample_oracle 50) (init (file two_stored))).
Proof.
  apply X14_removals_are_on_disk.
  - reflexivity.
  - apply sample_io_ok.
  - reflexivity.
Defined.

(** X15.  CloseNotification on a connected server removes the record under
    the ID and nothing else, leaves the counter alone, and ends by emitting
    NotificationClosed with the ID and reason 3, also when no record sat
    under the ID (the store is then unchanged); with persistence on and
    working I/O the remaining records are written first and nothing is
    logged. *)
Theorem X15_close_removes_and_signals cfg o id w :
  conn w = true ->
  history (CloseNotification cfg o id w) = delete id (history w) /\
  nextID (CloseNotification cfg o id w) = nextID w /\
  (history w !! id = None ->
   history (CloseNotification cfg o id w) = history w) /\
  (exists t,
     trace (CloseNotification cfg o id w)
     = (t ++ [EvEmit "org.freedesktop.Notifications.NotificationClosed" id 3])%list) /\
  (Persist cfg = true -> io_ok o ->
   file (CloseNotification cfg o id w)
   = Some (GobStream (delete id (history w))) /\
   trace (CloseNotification cfg o id w)
   = (trace w
      ++ [EvEmit "org.freedesktop.Notifications.NotificationClosed" id 3])%list).
Proof.
  intros Hc. unfold CloseNotification.
  destruct (save_if_frame (Persist cfg) o
              (with_history (delete id (history w)) w)) as [Hh Hn].
  assert (conn (if Persist cfg
                then saveToFile o (with_history (delete id (history w)) w)
                else with_history (delete id (history w)) w) = true) as ->.
  { destruct (Persist cfg); [|done].
    by destruct (saveToFile_frame o (with_history (delete id (history w)) w))
      as (_ & _ & ->). }
  simpl. split; [done|]. split; [done|]. split.
  - intros Habs. rewrite Hh. by apply delete_id.
  - split; [eauto|]. intros -> Hio. by rewrite saveToFile_ok.
Qed.

Lemma X15_close_witness :
  history (CloseNotification (sample_cfg 2) (sample_oracle 40) 7
             (with_conn true two_stored))
  = delete 7 (history (with_conn true two_stored)) /\
  nextID (CloseNotification (sample_cfg 2) (sample_oracle 40) 7
            (with_conn true two_stored))
  = nextID (with_conn true two_stored) /\
  (history (with_conn true two_stored) !! 7 = None ->
   history (CloseNotification (sample_cfg 2) (sample_oracle 40) 7
              (with_conn true two_stored))
   = history (with_conn true two_stored)) /\
  (exists t,
     trace (CloseNotification (sample_cfg 2) (sample_oracle 40) 7
              (with_conn true two_stored))
     = (t ++ [EvEmit "org.freedesktop.Notifications.NotificationClosed" 7 3])%list) /\
  (Persist (sample_cfg 2) = true -> io_ok (sample_oracle 40) ->
   file (CloseNotification (sample_cfg 2) (sample_oracle 40) 7
           (with_conn true two_stored))
   = Some (GobStream (delete 7 (history (with_conn true two_stored)))) /\
   trace (CloseNotification (sample_cfg 2) (sample_oracle 40) 7
            (with_conn true two_stored))
   = (trace (with_conn true two_stored)
      ++ [EvEmit "org.freedesktop.Notifications.NotificationClosed" 7 3])%list).
Proof. apply X15_close_removes_and_signals. reflexivity. Defined.

(** X16.  With persistence off, with no cache file, or with a cache file
    that cannot be read, the process starts with an empty store and the
    counter at 1, and leaves the file as it found it. *)
Theorem X16_start_without_usable_file cfg o f :
  Persist cfg = false \/ f = None \/ read_ok o = false ->
  history (Setup cfg o (init f)) = ∅ /\
  nextID (Setup cfg o (init f)) = 1 /\
  file (Setup cfg o (init f)) = f.
Proof.
  intros Hbad. unfold Setup, loadFromFile.
  destruct (Persist cfg); [|done]. simpl.
  destruct f as [blob|]; [|done].
  destruct (read_ok o); [|done].
  by destruct Hbad as [? | [? | ?]].
Qed.

Lemma X16_start_witness :
  history (Setup (sample_cfg 2) (sample_oracle 5) (init None)) = ∅ /\
  nextID (Setup (sample_cfg 2) (sample_oracle 5) (init None)) = 1 /\
  file (Setup (sample_cfg 2) (sample_oracle 5) (init None)) = None.
Proof. apply X16_start_without_usable_file. right. left. reflexivity. Defined.

Lemma bump_fold_origin ids next :
  Forall (fun k => 0 <= k < 2 ^ 32 - 1) ids ->
  fold_left bump_nextID ids next = next \/
  exists k, k ∈ ids /\ fold_left bump_nextID ids next = k + 1.
Proof.
  intros Hids. revert next.
  induction Hids as [|k ids Hk _ IH]; intros next; simpl; [by left|].
  destruct (IH (bump_nextID next k)) as [-> | (k' & Hin & ->)].
  - unfold bump_nextID, wrap32. destruct (next <=? k); [|by left].
    right. exists k. split; [apply list_elem_of_here|].
    rewrite Z.mod_small; lia.
  - right. exists k'. split; [by apply list_elem_of_further | done].
Qed.

(** X17.  A store whose IDs are all below the largest 32-bit value, saved
    with working I/O and loaded into a fresh process, comes back with the
    same records and with the counter exactly one above the largest ID
    (1 for an empty store): above every restored ID, and either 1 or the
    successor of a restored ID. *)
Theorem X17_save_then_load_restores o o' w :
  io_ok o -> read_ok o' = true -> range_ok o' ->
  (forall k n, history w !! k = Some n -> 0 <= k < 2 ^ 32 - 1) ->
  history (loadFromFile o' (init (file (saveToFile o w)))) = history w /\
  (forall k n, history w !! k = Some n ->
     k < nextID (loadFromFile o' (init (file (saveToFile o w))))) /\
  (nextID (loadFromFile o' (init (file (saveToFile o w)))) = 1 \/
   is_Some (history w
              !! (nextID (loadFromFile o' (init (file (saveToFile o w)))) - 1))).
Proof.
  intros Hio Hread Hr Hkeys. rewrite saveToFile_ok by done. simpl.
  destruct (load_restores o' (history w) (Some (GobStream (history w)))
              Hr Hread Hkeys eq_refl) as [Hh Habove].
  split; [done|]. split; [done|].
  unfold loadFromFile. simpl. rewrite Hread. simpl.
  assert (history w ∪ ∅ = history w) as -> by apply (right_id_L _ _).
  destruct (bump_fold_origin (fst <$> range o' (history w)) 1)
    as [-> | (k & Hin & ->)]; [|by left|right].
  - rewrite Forall_fmap, Forall_forall. intros [k n] Hin. simpl.
    apply (range_elem o' _ _ _ Hr) in Hin. eauto.
  - apply list_elem_of_fmap in Hin as ([k' n] & -> & Hin).
    apply (range_elem o' _ _ _ Hr) in Hin. simpl.
    replace (k' + 1 - 1) with k' by lia. eauto.
Qed.

Lemma X17_save_then_load_witness :
  history (loadFromFile (sample_oracle 50)
             (init (file (saveToFile (sample_oracle 40) two_stored))))
  = history two_stored /\
  (forall k n, history two_stored !! k = Some n ->
     k < nextID (loadFromFile (sample_oracle 50)
                   (init (file (saveToFile (sample_oracle 40) two_stored))))) /\
  (nextID (loadFromFile (sample_oracle 50)
             (init (file (saveToFile (sample_oracle 40) two_stored)))) = 1 \/
   is_Some (history two_stored
              !! (nextID (loadFromFile (sample_oracle 50)
                            (init (file (saveToFile (sample_oracle 40)
                                           two_stored)))) - 1))).
Proof.
  apply X17_save_then_load_restores.
  - apply sample_io_ok.
  - reflexivity.
  - apply sample_env_ok.
  - intros k n Hk.
    assert (nextID two_stored = 3) as Hn by reflexivity.
    assert (k = 1 \/ k = 2) as [-> | ->]; [|lia..].
    revert Hk. replace (history two_stored)
      with ({[ 1 := new_notification 1 (sample_args 0 "first") 10;
               2 := new_notification 2 (sample_args 0 "second") 20 ]} : History)
      by (by vm_compute).
    lookup_cases; tauto.
Defined.

(** ** The provider state and the bus service *)

(** X18.  State offers the dismiss_all action exactly when at least one
    notification is stored; on an empty store, and so after every
    dismiss_all, it reports "0 notifications" and offers nothing. *)
Theorem X18_state_offers_dismiss_all_when_nonempty w :
  (StateActions (State w) = [ActionDismissAll] <->
   exists k n, history w !! k = Some n) /\
  (history w = ∅ ->
   State w = {| States := ["0 notifications"]; StateActions := [] |}) /\
  (forall cfg o identifier,
     State (Activate cfg o identifier ActionDismissAll w)
     = {| States := ["0 notifications"]; StateActions := [] |}).
Proof.
  assert (forall w0, history w0 = ∅ ->
            State w0 = {| States := ["0 notifications"]; StateActions := [] |})
    as Hempty.
  { intros w0 Hh. unfold State. by rewrite Hh, map_size_empty. }
  split; [|split; [by apply Hempty|]].
  - unfold State. simpl.
    destruct (Z.ltb_spec 0 (Z.of_nat (size (history w)))) as [Hpos | Hzero].
    + split; [intros _ | done].
      destruct (map_choose (history w)) as (k & n & Hk); [|eauto].
      intros Hh. rewrite Hh, map_size_empty in Hpos. lia.
    + split; [done|]. intros (k & n & Hk).
      assert (size (history w) = 0%nat) as Hsz by lia.
      apply map_size_empty_inv in Hsz. rewrite Hsz in Hk.
      by rewrite lookup_empty in Hk.
  - intros cfg o identifier. apply Hempty.
    apply (Activate_dismiss_all cfg o identifier w).
Qed.




